(** * Keras initializers: a shallow embedding of [keras/initializers.py]

    Conventions of the embedding.
    - Python integers are [Z]; numpy integers are [Z] reduced to 64 bits
      by every numpy operation (the dimensions themselves are taken to fit
      in 64 bits); Python floats are idealised as the real numbers [R]
      (rounding, infinities and NaN are not modelled); [/] is the true
      division of Python 3.
    - A shape is a [list Z], indexed and sliced the way Python tuples are.
    - Exceptions raised by the module itself ([raise ValueError], a tuple
      index out of range, a division by a zero integer, a bad keyword
      argument) are values of [exn]; a fallible computation returns
      [result].
    - A numpy array is a shape with its entries.  The generator behind
      [np.random], the factorisations and the transforms of numpy, and the
      samplers and tensors of the Keras backend [K], are external: they are
      the fields of the classes [NumPy] and [Backend].
    - The process-wide numpy generator and the standard output are an
      explicit state, the [world], threaded through every call. *)

From Stdlib Require Import ZArith Reals Lra Lia List Ascii String Bool.
From stdpp Require Import base decidable gmap strings.

Local Open Scope string_scope.
Local Open Scope Z_scope.

(** ** Exceptions and fallible results *)

Inductive exn : Set :=
| ValueError
| IndexError
| TypeError
| ZeroDivisionError
| NotImplementedError.

Inductive result (A : Type) : Type :=
| Ok (a : A)
| Err (e : exn).
Arguments Ok {A} a.
Arguments Err {A} e.

#[global] Instance result_ret : MRet result := fun A a => Ok a.

#[global] Instance result_bind : MBind result := fun A B k r =>
  match r with
  | Ok a => k a
  | Err e => Err e
  end.

#[global] Instance result_fmap : FMap result := fun A B f r =>
  match r with
  | Ok a => Ok (f a)
  | Err e => Err e
  end.

(** ** Python tuples of integers *)

Module Py.

(** [t[i]], with Python's negative indices. *)
Definition getitem (t : list Z) (i : Z) : result Z :=
  let n := Z.of_nat (length t) in
  let j := if i <? 0 then i + n else i in
  if (0 <=? j) && (j <? n)
  then match nth_error t (Z.to_nat j) with
       | Some x => Ok x
       | None => Err IndexError
       end
  else Err IndexError.

(** The bound of a slice, clamped as Python does. *)
Definition clamp (n : nat) (i : Z) : nat :=
  let j := if i <? 0 then i + Z.of_nat n else i in
  Z.to_nat (Z.min (Z.max j 0) (Z.of_nat n)).

(** [t[:j]] *)
Definition slice_to {A : Type} (t : list A) (j : Z) : list A :=
  firstn (clamp (length t) j) t.

(** [t[i:]] *)
Definition slice_from {A : Type} (t : list A) (i : Z) : list A :=
  skipn (clamp (length t) i) t.

(** [str.lower()] on ASCII strings. *)
Definition lower_ascii (c : ascii) : ascii :=
  let n := nat_of_ascii c in
  if (Nat.leb 65 n && Nat.leb n 90)%bool then ascii_of_nat (n + 32) else c.

Fixpoint lower (s : string) : string :=
  match s with
  | EmptyString => EmptyString
  | String c s' => String (lower_ascii c) (lower s')
  end.

End Py.

(** ** Numbers returned by the fan calculator

    A fan is a Python integer (an entry of the shape), a numpy integer (a
    product computed by [np.prod]) or a numpy float (a square root). *)

Inductive number : Type :=
| PyInt (z : Z)
| NpInt (z : Z)
| NpFloat (r : R).

Definition to_R (x : number) : R :=
  match x with
  | PyInt z | NpInt z => IZR z
  | NpFloat r => r
  end.

(** The product of a tuple of integers. *)
Definition product (t : list Z) : Z := fold_right Z.mul 1 t.

(** numpy integers are 64-bit and signed: a sum or a product is reduced
    modulo [2^64] into [[-2^63, 2^63)]. *)
Definition wrap64 (z : Z) : Z := (z + 2 ^ 63) mod 2 ^ 64 - 2 ^ 63.

Arguments wrap64 : simpl never.

Definition in_int64 (z : Z) : Prop := - 2 ^ 63 <= z < 2 ^ 63.

(** [np.prod] of a tuple of integers: the product, as a numpy integer. *)
Definition np_prod (t : list Z) : Z := wrap64 (product t).

(** ** Utility functions: [_compute_fans] *)

Definition conv_ranks : gset Z := {[ 3; 4; 5 ]}.

Definition _compute_fans (shape : list Z) (data_format : string)
  : result (number * number) :=
  (if decide (Z.of_nat (length shape) = 2) then
     fan_in ← Py.getitem shape 0;
     fan_out ← Py.getitem shape 1;
     Ok (PyInt fan_in, PyInt fan_out)
   else if decide (Z.of_nat (length shape) ∈ conv_ranks) then
     if decide (data_format = "channels_first") then
       let receptive_field_size := np_prod (Py.slice_from shape 2) in
       s1 ← Py.getitem shape 1;
       s0 ← Py.getitem shape 0;
       Ok (NpInt (wrap64 (s1 * receptive_field_size)),
           NpInt (wrap64 (s0 * receptive_field_size)))
     else if decide (data_format = "channels_last") then
       let receptive_field_size := np_prod (Py.slice_to shape 2) in
       sm2 ← Py.getitem shape (-2);
       sm1 ← Py.getitem shape (-1);
       Ok (NpInt (wrap64 (sm2 * receptive_field_size)),
           NpInt (wrap64 (sm1 * receptive_field_size)))
     else Err ValueError
   else
     let fan := NpFloat (sqrt (IZR (np_prod shape))) in
     Ok (fan, fan)).

(** The default value of the [data_format] argument. *)
Definition default_data_format : string := "channels_last".

(** ** numpy

    An array is its shape and its entries in row-major order.  The
    generator, the factorisations, the transforms and the other array
    operations are numpy's; they are taken as total functions and their own
    failures are not modelled. *)

Record ndarray : Type := { nd_shape : list Z; nd_data : list R }.

Class NumPy : Type := {
  (** state of the process-wide generator behind [np.random] *)
  rng : Type;
  (** the state [np.random.seed(s)] installs *)
  np_random_seed : Z -> rng;
  (** [np.random.normal(loc, scale, size)]: the array drawn and the state left *)
  np_random_normal : R -> R -> list Z -> rng -> ndarray * rng;
  (** [np.linalg.svd(a, full_matrices)] *)
  np_linalg_svd : ndarray -> bool -> ndarray * ndarray * ndarray;
  (** [np.fft.irfft(a, n)] and [np.fft.irfft2(a, s)] *)
  np_fft_irfft : ndarray -> option Z -> ndarray;
  np_fft_irfft2 : ndarray -> option (list Z) -> ndarray;
  (** [a.reshape(shape)], [a[:i, :j]], [a.T], [a.transpose(axes)] *)
  np_reshape : ndarray -> list Z -> ndarray;
  np_corner : ndarray -> Z -> Z -> ndarray;
  np_T : ndarray -> ndarray;
  np_transpose : ndarray -> list Z -> ndarray;
  (** [a + b], [a - b], [np.diag(v)], [a.diagonal()], [np.var(a)] *)
  np_add : ndarray -> ndarray -> ndarray;
  np_sub : ndarray -> ndarray -> ndarray;
  np_diag : ndarray -> ndarray;
  np_diagonal : ndarray -> ndarray;
  np_var : ndarray -> R;
  (** [a.tolist()] of a matrix, [np.array(rows, dtype)], the iteration
      [for x in a] over the first axis, and [np.array] of a list of lists
      of arrays *)
  np_tolist : ndarray -> list (list R);
  np_array : list (list R) -> string -> ndarray;
  np_iter : ndarray -> list ndarray;
  np_array_nested : list (list ndarray) -> string -> ndarray;
}.

(** [x * a] for a scalar [x]. *)
Definition np_scale (x : R) (a : ndarray) : ndarray :=
  {| nd_shape := nd_shape a; nd_data := map (Rmult x) (nd_data a) |}.

(** [np.zeros(shape)] *)
Definition np_zeros (shape : list Z) : ndarray :=
  {| nd_shape := shape; nd_data := repeat 0%R (Z.to_nat (product shape)) |}.

(** Row [i] of the identity matrix with [n] columns. *)
Definition identity_row (n i : nat) : list R :=
  map (fun j => if Nat.eqb i j then 1%R else 0%R) (seq 0 n).

(** [np.identity(n)]; numpy refuses a negative [n]. *)
Definition np_identity (n : Z) : result ndarray :=
  if n <? 0 then Err ValueError
  else Ok {| nd_shape := [n; n];
             nd_data := concat (map (identity_row (Z.to_nat n)) (seq 0 (Z.to_nat n))) |}.

(** ** The Keras backend [K] *)

Class Backend `{NumPy} : Type := {
  tensor : Type;
  (** [K.constant(value, shape, dtype)] *)
  K_constant : R -> list Z -> option string -> tensor;
  (** [K.random_normal(shape, mean, stddev, dtype, seed)] and its siblings;
      a backend may consult the process-wide generator *)
  K_random_normal :
    list Z -> R -> R -> option string -> option Z -> rng -> tensor * rng;
  K_random_uniform :
    list Z -> R -> R -> option string -> option Z -> rng -> tensor * rng;
  K_truncated_normal :
    list Z -> R -> R -> option string -> option Z -> rng -> tensor * rng;
  (** [K.image_data_format()] and [K.floatx()] *)
  K_image_data_format : string;
  K_floatx : string;
}.

(** What the backend promises of a seeded sampler: the tensor drawn does
    not depend on the state of the process-wide generator. *)
Definition seeded_sampler `{NumPy} {T : Type}
  (sample : list Z -> R -> R -> option string -> option Z -> rng -> T * rng)
  : Prop :=
  forall shape a b dtype (s : Z) (g1 g2 : rng),
    fst (sample shape a b dtype (Some s) g1) = fst (sample shape a b dtype (Some s) g2).

Class BackendSeeded `{Backend} : Prop := {
  K_random_normal_seeded : seeded_sampler K_random_normal;
  K_random_uniform_seeded : seeded_sampler K_random_uniform;
  K_truncated_normal_seeded : seeded_sampler K_truncated_normal;
}.

(** ** Calls: state and exceptions

    What a call can change outside itself: the process-wide generator and
    the standard output. *)

Record world `{NumPy} : Type := { gen : rng; stdout : list (list Z) }.

Definition M `{NumPy} (A : Type) : Type := world -> result A * world.

#[global] Instance M_ret `{NumPy} : MRet M := fun A a w => (Ok a, w).

#[global] Instance M_bind `{NumPy} : MBind M := fun A B k m w =>
  match m w with
  | (Ok a, w') => k a w'
  | (Err e, w') => (Err e, w')
  end.

#[global] Instance M_fmap `{NumPy} : FMap M := fun A B f m w =>
  match m w with
  | (Ok a, w') => (Ok (f a), w')
  | (Err e, w') => (Err e, w')
  end.

Definition lift `{NumPy} {A : Type} (r : result A) : M A := fun w => (r, w).

(** A draw from the process-wide generator. *)
Definition draw `{NumPy} {A : Type} (f : rng -> A * rng) : M A := fun w =>
  let '(a, g) := f (gen w) in (Ok a, {| gen := g; stdout := stdout w |}).

(** [np.random.seed(s)] *)
Definition reseed `{NumPy} (s : Z) : M unit := fun w =>
  (Ok tt, {| gen := np_random_seed s; stdout := stdout w |}).

(** [print(...)] of a tuple of integers *)
Definition print `{NumPy} (line : list Z) : M unit := fun w =>
  (Ok tt, {| gen := gen w; stdout := stdout w ++ [line] |}).

(** [[body for _ in range(n)]] *)
Fixpoint for_range `{NumPy} {A : Type} (n : nat) (body : M A) : M (list A) :=
  match n with
  | O => mret []
  | S n' => a ← body; l ← for_range n' body; mret (a :: l)
  end.

(** [[body(x) for x in l]] *)
Fixpoint for_each `{NumPy} {A B : Type} (body : A -> M B) (l : list A) : M (list B) :=
  match l with
  | [] => mret []
  | x :: l' => b ← body x; bs ← for_each body l'; mret (b :: bs)
  end.

(** ** Python values and configuration records *)

Inductive pyval : Type :=
| PNone
| PInt (z : Z)
| PFloat (r : R)
| PStr (s : string).

(** A configuration record: the dict that [get_config] returns and
    [from_config] receives. *)
Abbreviation config := (gmap string pyval).

Definition of_seed (seed : option Z) : pyval :=
  match seed with
  | Some s => PInt s
  | None => PNone
  end.

(** Calling a class with the entries of a record as keywords first binds
    them: a keyword that is not a parameter of its [__init__] is a
    [TypeError]. *)
Definition bind_keywords (params : list string) (c : config) : result unit :=
  if decide (dom c ⊆ (list_to_set params : gset string)) then Ok tt else Err TypeError.

(** The value bound to a parameter: the keyword's, or else the default.
    The fields of the instances are typed; a value of another type is
    reported as a [TypeError]. *)
Definition kw_float (c : config) (name : string) (default : R) : result R :=
  match c !! name with
  | None => Ok default
  | Some (PFloat r) => Ok r
  | Some (PInt z) => Ok (IZR z)
  | Some _ => Err TypeError
  end.

Arguments kw_float c name%_string default%_R.

Definition kw_str (c : config) (name : string) (default : string) : result string :=
  match c !! name with
  | None => Ok default
  | Some (PStr s) => Ok s
  | Some _ => Err TypeError
  end.

Definition kw_seed (c : config) (name : string) : result (option Z) :=
  match c !! name with
  | None | Some PNone => Ok None
  | Some (PInt z) => Ok (Some z)
  | Some _ => Err TypeError
  end.

(** ** Python arithmetic on floats *)

(** [max(a, b)]: the first argument unless the second is greater. *)
Definition py_max (a b : R) : R := if Rlt_dec a b then b else a.

(** [a + b] on fans: exact on Python integers, 64-bit as soon as a numpy
    integer is involved. *)
Definition number_add (a b : number) : number :=
  match a, b with
  | PyInt x, PyInt y => PyInt (x + y)
  | PyInt x, NpInt y | NpInt x, PyInt y | NpInt x, NpInt y => NpInt (wrap64 (x + y))
  | _, _ => NpFloat (to_R a + to_R b)
  end.

(** [a / b] (true division): only a Python integer zero raises. *)
Definition py_truediv (a : R) (b : number) : result R :=
  match b with
  | PyInt 0 => Err ZeroDivisionError
  | _ => Ok (a / to_R b)%R
  end.

(** ** The initializers *)

Module Initializer.
Section Base.
Context `{Backend}.
Definition __call__ (shape : list Z) (dtype : option string) : M tensor :=
  lift (Err NotImplementedError).
Definition get_config : config := ∅.
End Base.
End Initializer.

Module Zeros.
Record t : Type := mk { }.
Section Methods.
Context `{Backend}.
Definition __init__ : t := mk.
Definition __call__ (self : t) (shape : list Z) (dtype : option string) : M tensor :=
  mret (K_constant 0 shape dtype).
Definition get_config (self : t) : config := Initializer.get_config.
Definition from_config (c : config) : result t :=
  _ ← bind_keywords [] c; Ok __init__.
End Methods.
End Zeros.

Module Ones.
Record t : Type := mk { }.
Section Methods.
Context `{Backend}.
Definition __init__ : t := mk.
Definition __call__ (self : t) (shape : list Z) (dtype : option string) : M tensor :=
  mret (K_constant 1 shape dtype).
Definition get_config (self : t) : config := Initializer.get_config.
Definition from_config (c : config) : result t :=
  _ ← bind_keywords [] c; Ok __init__.
End Methods.
End Ones.

Module Constant.
Record t : Type := mk { value : R }.
Section Methods.
Context `{Backend}.
Definition __init__ (value : R) : t := mk value.
Definition __call__ (self : t) (shape : list Z) (dtype : option string) : M tensor :=
  mret (K_constant (value self) shape dtype).
Definition get_config (self : t) : config := {[ "value" := PFloat (value self) ]}.
Definition from_config (c : config) : result t :=
  _ ← bind_keywords ["value"] c;
  value ← kw_float c "value" 0;
  Ok (__init__ value).
End Methods.
End Constant.

Module RandomNormal.
Record t : Type := mk { mean : R; stddev : R; seed : option Z }.
Section Methods.
Context `{Backend}.
Definition __init__ (mean stddev : R) (seed : option Z) : t := mk mean stddev seed.
Definition __call__ (self : t) (shape : list Z) (dtype : option string) : M tensor :=
  draw (K_random_normal shape (mean self) (stddev self) dtype (seed self)).
Definition get_config (self : t) : config :=
  {[ "mean" := PFloat (mean self);
     "stddev" := PFloat (stddev self);
     "seed" := of_seed (seed self) ]}.
Definition from_config (c : config) : result t :=
  _ ← bind_keywords ["mean"; "stddev"; "seed"] c;
  mean ← kw_float c "mean" 0;
  stddev ← kw_float c "stddev" 0.05;
  seed ← kw_seed c "seed";
  Ok (__init__ mean stddev seed).
End Methods.
End RandomNormal.

Module RandomUniform.
Record t : Type := mk { minval : R; maxval : R; seed : option Z }.
Section Methods.
Context `{Backend}.
Definition __init__ (minval maxval : R) (seed : option Z) : t := mk minval maxval seed.
Definition __call__ (self : t) (shape : list Z) (dtype : option string) : M tensor :=
  draw (K_random_uniform shape (minval self) (maxval self) dtype (seed self)).
Definition get_config (self : t) : config :=
  {[ "minval" := PFloat (minval self);
     "maxval" := PFloat (maxval self);
     "seed" := of_seed (seed self) ]}.
Definition from_config (c : config) : result t :=
  _ ← bind_keywords ["minval"; "maxval"; "seed"] c;
  minval ← kw_float c "minval" (-0.05);
  maxval ← kw_float c "maxval" 0.05;
  seed ← kw_seed c "seed";
  Ok (__init__ minval maxval seed).
End Methods.
End RandomUniform.

Module TruncatedNormal.
Record t : Type := mk { mean : R; stddev : R; seed : option Z }.
Section Methods.
Context `{Backend}.
Definition __init__ (mean stddev : R) (seed : option Z) : t := mk mean stddev seed.
Definition __call__ (self : t) (shape : list Z) (dtype : option string) : M tensor :=
  draw (K_truncated_normal shape (mean self) (stddev self) dtype (seed self)).
Definition get_config (self : t) : config :=
  {[ "mean" := PFloat (mean self);
     "stddev" := PFloat (stddev self);
     "seed" := of_seed (seed self) ]}.
Definition from_config (c : config) : result t :=
  _ ← bind_keywords ["mean"; "stddev"; "seed"] c;
  mean ← kw_float c "mean" 0;
  stddev ← kw_float c "stddev" 0.05;
  seed ← kw_seed c "seed";
  Ok (__init__ mean stddev seed).
End Methods.
End TruncatedNormal.

Module VarianceScaling.
Record t : Type :=
  mk { scale : R; mode : string; distribution : string; seed : option Z }.

Definition modes : gset string := {[ "fan_in"; "fan_out"; "fan_avg" ]}.
Definition distributions : gset string := {[ "normal"; "uniform" ]}.

Definition __init__ (scale : R) (mode distribution : string) (seed : option Z)
  : result t :=
  if Rle_dec scale 0 then Err ValueError
  else
    let mode := Py.lower mode in
    if decide (mode ∉ modes) then Err ValueError
    else
      let distribution := Py.lower distribution in
      if decide (distribution ∉ distributions) then Err ValueError
      else Ok (mk scale mode distribution seed).

Section Methods.
Context `{Backend}.

Definition __call__ (self : t) (shape : list Z) (dtype : option string) : M tensor :=
  '(fan_in, fan_out) ← lift (_compute_fans shape default_data_format);
  let scale := scale self in
  let scale :=
    if decide (mode self = "fan_in") then (scale / py_max 1 (to_R fan_in))%R
    else if decide (mode self = "fan_out") then (scale / py_max 1 (to_R fan_out))%R
    else (scale / py_max 1 (to_R (number_add fan_in fan_out) / 2))%R in
  if decide (distribution self = "normal") then
    let stddev := sqrt scale in
    draw (K_truncated_normal shape 0 stddev dtype (seed self))
  else
    let limit := sqrt (3 * scale) in
    draw (K_random_uniform shape (- limit) limit dtype (seed self)).

Definition get_config (self : t) : config :=
  {[ "scale" := PFloat (scale self);
     "mode" := PStr (mode self);
     "distribution" := PStr (distribution self);
     "seed" := of_seed (seed self) ]}.

Definition from_config (c : config) : result t :=
  _ ← bind_keywords ["scale"; "mode"; "distribution"; "seed"] c;
  scale ← kw_float c "scale" 1;
  mode ← kw_str c "mode" "fan_in";
  distribution ← kw_str c "distribution" "normal";
  seed ← kw_seed c "seed";
  __init__ scale mode distribution seed.
End Methods.
End VarianceScaling.

Module Orthogonal.
Record t : Type := mk { gain : R; seed : option Z }.

Definition __init__ (gain : R) (seed : option Z) : t := mk gain seed.

(** The two entries of [flat_shape]. *)
Definition num_rows (shape : list Z) : Z :=
  fold_left (fun num_rows dim => num_rows * dim) (Py.slice_to shape (-1)) 1.

Definition num_cols (shape : list Z) : result Z := Py.getitem shape (-1).

Section Methods.
Context `{NumPy}.

Definition __call__ (self : t) (shape : list Z) (dtype : option string) : M ndarray :=
  let num_rows := num_rows shape in
  num_cols ← lift (num_cols shape);
  let flat_shape := [num_rows; num_cols] in
  _ ← match seed self with
      | Some s => reseed s
      | None => mret tt
      end;
  a ← draw (np_random_normal 0 1 flat_shape);
  let '(u, _, v) := np_linalg_svd a false in
  let q := if decide (nd_shape u = flat_shape) then u else v in
  let q := np_reshape q shape in
  s0 ← lift (Py.getitem shape 0);
  s1 ← lift (Py.getitem shape 1);
  mret (np_scale (gain self) (np_corner q s0 s1)).

Definition get_config (self : t) : config :=
  {[ "gain" := PFloat (gain self); "seed" := of_seed (seed self) ]}.

Definition from_config (c : config) : result t :=
  _ ← bind_keywords ["gain"; "seed"] c;
  gain ← kw_float c "gain" 1;
  seed ← kw_seed c "seed";
  Ok (__init__ gain seed).
End Methods.
End Orthogonal.

Module ConvolutionAware.
Record t : Type := mk { eps_std : R; seed : option Z; orthogonal : Orthogonal.t }.

Definition __init__ (eps_std : R) (seed : option Z) : t :=
  mk eps_std seed (Orthogonal.__init__ 1 None).

Section Methods.
Context `{Backend}.

Definition _symmetrize (a : ndarray) : ndarray :=
  np_sub (np_add a (np_T a)) (np_diag (np_diagonal a)).

Definition _scale_filters (filters : ndarray) (variance : R) : ndarray :=
  let c_var := np_var filters in
  let p := sqrt (variance / c_var) in
  np_scale p filters.

Definition _create_basis (self : t) (filters size : Z) : M ndarray :=
  if decide (size = 1) then
    draw (np_random_normal 0 (eps_std self) [filters; size])
  else
    let nbb := filters / size + 1 in
    li ← for_range (Z.to_nat nbb)
           (a ← draw (np_random_normal 0 1 [size; size]);
            let a := _symmetrize a in
            let '(u, _, v) := np_linalg_svd a true in
            mret (np_tolist (np_T u)));
    let li := concat li in
    mret (np_array (Py.slice_to li filters) K_floatx).

(** The part of [__call__] shared by the ranks 3 and 4, after the
    branch has fixed the axes, the kernel shape and the transform. *)
Definition fourier_filters (self : t)
    (transpose_dimensions kernel_shape : list Z)
    (correct_fft : ndarray -> option (list Z) -> ndarray)
    (stack_size filters_size : Z) (variance : R) : M ndarray :=
  let kernel_fourier_shape := nd_shape (correct_fft (np_zeros kernel_shape) None) in
  init ← for_range (Z.to_nat filters_size)
           (basis ← _create_basis self stack_size (np_prod kernel_fourier_shape);
            let basis := np_reshape basis (stack_size :: kernel_fourier_shape) in
            for_each
              (fun x =>
                 let y := correct_fft x (Some kernel_shape) in
                 noise ← draw (np_random_normal 0 (eps_std self) kernel_shape);
                 mret (np_add y noise))
              (np_iter basis));
  let init := np_array_nested init K_floatx in
  let init := _scale_filters init variance in
  mret (np_transpose init transpose_dimensions).

Definition __call__ (self : t) (shape : list Z) : M ndarray :=
  let rank := Z.of_nat (length shape) in
  '(fan_in, fan_out) ← lift (_compute_fans shape K_image_data_format);
  variance ← lift (py_truediv 2 fan_in);
  if decide (rank = 3) then
    match shape with
    | [row; stack_size; filters_size] =>
        let transpose_dimensions := [2; 1; 0] in
        let kernel_shape := [row] in
        let correct_fft := fun a (s : option (list Z)) =>
          np_fft_irfft a (match s with Some (n :: _) => Some n | _ => None end) in
        fourier_filters self transpose_dimensions kernel_shape correct_fft
          stack_size filters_size variance
    | _ => lift (Err ValueError)
    end
  else if decide (rank = 4) then
    match shape with
    | [row; column; stack_size; filters_size] =>
        _ ← print [row; column; stack_size; filters_size];
        let transpose_dimensions := [2; 3; 1; 0] in
        let kernel_shape := [row; column] in
        let correct_fft := np_fft_irfft2 in
        fourier_filters self transpose_dimensions kernel_shape correct_fft
          stack_size filters_size variance
    | _ => lift (Err ValueError)
    end
  else Orthogonal.__call__ (orthogonal self) shape None.

Definition get_config (self : t) : config :=
  {[ "eps_std" := PFloat (eps_std self); "seed" := of_seed (seed self) ]}.

Definition from_config (c : config) : result t :=
  _ ← bind_keywords ["eps_std"; "seed"] c;
  eps_std ← kw_float c "eps_std" 0.05;
  seed ← kw_seed c "seed";
  Ok (__init__ eps_std seed).
End Methods.
End ConvolutionAware.

Module Identity.
Record t : Type := mk { gain : R }.

Definition __init__ (gain : R) : t := mk gain.

Definition __call__ (self : t) (shape : list Z) (dtype : option string)
  : result ndarray :=
  if decide (Z.of_nat (length shape) ≠ 2) then Err ValueError
  else
    s0 ← Py.getitem shape 0;
    s1 ← Py.getitem shape 1;
    if decide (s0 ≠ s1) then Err ValueError
    else
      n ← Py.getitem shape 0;
      i ← np_identity n;
      Ok (np_scale (gain self) i).

Definition get_config (self : t) : config := {[ "gain" := PFloat (gain self) ]}.

Definition from_config (c : config) : result t :=
  _ ← bind_keywords ["gain"] c;
  gain ← kw_float c "gain" 1;
  Ok (__init__ gain).
End Identity.

(** ** The named presets *)

Definition lecun_uniform (seed : option Z) : result VarianceScaling.t :=
  VarianceScaling.__init__ 1 "fan_in" "uniform" seed.

Definition glorot_normal (seed : option Z) : result VarianceScaling.t :=
  VarianceScaling.__init__ 1 "fan_avg" "normal" seed.

Definition glorot_uniform (seed : option Z) : result VarianceScaling.t :=
  VarianceScaling.__init__ 1 "fan_avg" "uniform" seed.

Definition he_normal (seed : option Z) : result VarianceScaling.t :=
  VarianceScaling.__init__ 2 "fan_in" "normal" seed.

Definition he_uniform (seed : option Z) : result VarianceScaling.t :=
  VarianceScaling.__init__ 2 "fan_in" "uniform" seed.

(** ** The class hierarchy

    An initializer is an instance of one of the subclasses of
    [Initializer]; the methods are dispatched on the class. *)

Inductive class : Set :=
| CZeros | COnes | CConstant | CRandomNormal | CRandomUniform
| CTruncatedNormal | CVarianceScaling | COrthogonal | CConvolutionAware
| CIdentity.

Inductive initializer : Type :=
| IZeros (self : Zeros.t)
| IOnes (self : Ones.t)
| IConstant (self : Constant.t)
| IRandomNormal (self : RandomNormal.t)
| IRandomUniform (self : RandomUniform.t)
| ITruncatedNormal (self : TruncatedNormal.t)
| IVarianceScaling (self : VarianceScaling.t)
| IOrthogonal (self : Orthogonal.t)
| IConvolutionAware (self : ConvolutionAware.t)
| IIdentity (self : Identity.t).

Definition class_of (i : initializer) : class :=
  match i with
  | IZeros _ => CZeros
  | IOnes _ => COnes
  | IConstant _ => CConstant
  | IRandomNormal _ => CRandomNormal
  | IRandomUniform _ => CRandomUniform
  | ITruncatedNormal _ => CTruncatedNormal
  | IVarianceScaling _ => CVarianceScaling
  | IOrthogonal _ => COrthogonal
  | IConvolutionAware _ => CConvolutionAware
  | IIdentity _ => CIdentity
  end.

(** [self.seed], for the classes that have the attribute. *)
Definition seed_of (i : initializer) : option Z :=
  match i with
  | IRandomNormal self => RandomNormal.seed self
  | IRandomUniform self => RandomUniform.seed self
  | ITruncatedNormal self => TruncatedNormal.seed self
  | IVarianceScaling self => VarianceScaling.seed self
  | IOrthogonal self => Orthogonal.seed self
  | IConvolutionAware self => ConvolutionAware.seed self
  | IZeros _ | IOnes _ | IConstant _ | IIdentity _ => None
  end.

(** The instances the constructors build.  [VarianceScaling.__init__]
    validates and normalises its arguments and [ConvolutionAware.__init__]
    creates the inner [Orthogonal()]; the other constructors store their
    arguments as they are. *)
Definition constructed (i : initializer) : Prop :=
  match i with
  | IVarianceScaling self =>
      exists scale mode distribution seed,
        VarianceScaling.__init__ scale mode distribution seed = Ok self
  | IConvolutionAware self =>
      exists eps_std seed, self = ConvolutionAware.__init__ eps_std seed
  | _ => True
  end.

(** What a call returns: a backend tensor or a numpy array. *)
Inductive value `{Backend} : Type :=
| KTensor (x : tensor)
| NdArray (a : ndarray).

Section Dispatch.
Context `{Backend}.

Definition get_config (i : initializer) : config :=
  match i with
  | IZeros self => Zeros.get_config self
  | IOnes self => Ones.get_config self
  | IConstant self => Constant.get_config self
  | IRandomNormal self => RandomNormal.get_config self
  | IRandomUniform self => RandomUniform.get_config self
  | ITruncatedNormal self => TruncatedNormal.get_config self
  | IVarianceScaling self => VarianceScaling.get_config self
  | IOrthogonal self => Orthogonal.get_config self
  | IConvolutionAware self => ConvolutionAware.get_config self
  | IIdentity self => Identity.get_config self
  end.

Definition from_config (cls : class) (c : config) : result initializer :=
  match cls with
  | CZeros => IZeros <$> Zeros.from_config c
  | COnes => IOnes <$> Ones.from_config c
  | CConstant => IConstant <$> Constant.from_config c
  | CRandomNormal => IRandomNormal <$> RandomNormal.from_config c
  | CRandomUniform => IRandomUniform <$> RandomUniform.from_config c
  | CTruncatedNormal => ITruncatedNormal <$> TruncatedNormal.from_config c
  | CVarianceScaling => IVarianceScaling <$> VarianceScaling.from_config c
  | COrthogonal => IOrthogonal <$> Orthogonal.from_config c
  | CConvolutionAware => IConvolutionAware <$> ConvolutionAware.from_config c
  | CIdentity => IIdentity <$> Identity.from_config c
  end.

(** [initializer(shape)], the element type left to its default. *)
Definition call (i : initializer) (shape : list Z) : M value :=
  match i with
  | IZeros self => KTensor <$> Zeros.__call__ self shape None
  | IOnes self => KTensor <$> Ones.__call__ self shape None
  | IConstant self => KTensor <$> Constant.__call__ self shape None
  | IRandomNormal self => KTensor <$> RandomNormal.__call__ self shape None
  | IRandomUniform self => KTensor <$> RandomUniform.__call__ self shape None
  | ITruncatedNormal self => KTensor <$> TruncatedNormal.__call__ self shape None
  | IVarianceScaling self => KTensor <$> VarianceScaling.__call__ self shape None
  | IOrthogonal self => NdArray <$> Orthogonal.__call__ self shape None
  | IConvolutionAware self => NdArray <$> ConvolutionAware.__call__ self shape
  | IIdentity self => NdArray <$> lift (Identity.__call__ self shape None)
  end.
End Dispatch.

(** ** Shapes *)

(** A shape of the data model: positive dimensions. *)
Definition valid_shape (shape : list Z) : Prop := Forall (fun d => 0 < d) shape.

(** The fans the specification asks of a convolution kernel in
    [channels_last] layout: the receptive field is the product of the
    dimensions [shape[:-2]]. *)
Definition receptive_field_channels_last (shape : list Z) : Z :=
  product (Py.slice_to shape (-2)).

(** [g] times the [n]-by-[n] identity matrix, entry by entry. *)
Definition scaled_identity (g : R) (n : Z) : ndarray :=
  {| nd_shape := [n; n];
     nd_data :=
       concat (map (fun i => map (fun j => if Nat.eqb i j then g else 0%R)
                                 (seq 0 (Z.to_nat n)))
                   (seq 0 (Z.to_nat n))) |}.

(** Two strings compared case-insensitively. *)
Definition eq_ignoring_case (a b : string) : Prop := Py.lower a = Py.lower b.

(** ** Determinism and frame properties *)

(** The value a call returns does not depend on the state of the
    process-wide generator it is made in. *)
Definition deterministic `{NumPy} {A : Type} (m : M A) : Prop :=
  forall w1 w2 : world, fst (m w1) = fst (m w2).

(** The generator state a draw of [Orthogonal] starts from: the seed's,
    when there is one, and else the current one. *)
Definition draw_from `{NumPy} (seed : option Z) (g : rng) : rng :=
  match seed with
  | Some s => np_random_seed s
  | None => g
  end.

(** A call that writes nothing to the standard output. *)
Definition silent `{NumPy} {A : Type} (m : M A) : Prop :=
  forall w : world, stdout (snd (m w)) = stdout w.

(** The generator state a call leaves does not depend on [seed]. *)
Definition generator_unaffected_by_seed `{NumPy} {A : Type}
  (m : option Z -> M A) : Prop :=
  forall (s1 s2 : option Z) (w : world), gen (snd (m s1 w)) = gen (snd (m s2 w)).

(** ** A reference instance of the interfaces

    A small numpy and backend on which the calls can be run on concrete
    inputs.  The state of the generator is the seed of its stream and the
    number of values already consumed; seeding rewinds to the start of the
    seed's stream and a draw consumes as many values as the array has
    entries.  The array operations only carry shapes and entries along:
    they neither factor nor transform. *)

Module Reference.

Definition stream (seed position : Z) : R := IZR (seed + position).

Definition normal (loc scale : R) (size : list Z) (g : Z * Z) : ndarray * (Z * Z) :=
  let n := Z.to_nat (product size) in
  ({| nd_shape := size;
      nd_data := map (fun i => (loc + scale * stream (fst g) (snd g + Z.of_nat i))%R)
                     (seq 0 n) |},
   (fst g, snd g + Z.of_nat n)).

Definition with_shape (a : ndarray) (shape : list Z) : ndarray :=
  {| nd_shape := shape; nd_data := nd_data a |}.

Definition pointwise (f : R -> R -> R) (a b : ndarray) : ndarray :=
  {| nd_shape := nd_shape a;
     nd_data := map (fun p => f (fst p) (snd p)) (combine (nd_data a) (nd_data b)) |}.

#[export] Instance numpy : NumPy := {|
  rng := Z * Z;
  np_random_seed := fun s => (s, 0);
  np_random_normal := normal;
  np_linalg_svd := fun a _ => (a, a, a);
  np_fft_irfft := fun a _ => a;
  np_fft_irfft2 := fun a _ => a;
  np_reshape := with_shape;
  np_corner := fun a _ _ => a;
  np_T := fun a => a;
  np_transpose := fun a _ => a;
  np_add := pointwise Rplus;
  np_sub := pointwise Rminus;
  np_diag := fun a => a;
  np_diagonal := fun a => a;
  np_var := fun _ => 1%R;
  np_tolist := fun a => [nd_data a];
  np_array := fun rows _ =>
    {| nd_shape := [Z.of_nat (length rows)]; nd_data := concat rows |};
  np_iter := fun a => [a];
  np_array_nested := fun l _ =>
    {| nd_shape := [Z.of_nat (length l)];
       nd_data := concat (map nd_data (concat l)) |};
|}.

(** A seeded sampler draws from the start of the seed's stream and leaves
    the process-wide generator alone; an unseeded one draws from it. *)
Definition sampler (shape : list Z) (a b : R) (dtype : option string)
    (seed : option Z) (g : Z * Z) : ndarray * (Z * Z) :=
  match seed with
  | Some s => (fst (normal a b shape (s, 0)), g)
  | None => normal a b shape g
  end.

#[export] Instance backend : Backend := {|
  tensor := ndarray;
  K_constant := fun v shape _ =>
    {| nd_shape := shape; nd_data := repeat v (Z.to_nat (product shape)) |};
  K_random_normal := sampler;
  K_random_uniform := sampler;
  K_truncated_normal := sampler;
  K_image_data_format := "channels_last";
  K_floatx := "float32";
|}.

(** The world before anything has been drawn or printed. *)
Definition start : world := {| gen := (0, 0); stdout := [] |}.

End Reference.

(** ** A backend that records what it is asked

    Over the generator of [Reference]: a sampler returns, as its tensor,
    the shape and the two parameters of the law it was called with, and
    leaves the generator alone. *)

Module Recording.

Definition sampler (shape : list Z) (a b : R) (dtype : option string)
    (seed : option Z) (g : @rng Reference.numpy)
  : (list Z * R * R) * @rng Reference.numpy :=
  ((shape, a, b), g).

#[export] Instance backend : @Backend Reference.numpy := {|
  tensor := (list Z * R * R)%type;
  K_constant := fun v shape _ => (shape, v, v);
  K_random_normal := sampler;
  K_random_uniform := sampler;
  K_truncated_normal := sampler;
  K_image_data_format := "channels_last";
  K_floatx := "float32";
|}.

End Recording.

(** ** The sentences of the specification on [VarianceScaling], as written *)

(** The sum of two fans is the mathematical one: always on Python integers
    and on floats, and on numpy integers when it fits in 64 bits. *)
Definition sum_fits (a b : number) : Prop :=
  match a, b with
  | PyInt _, PyInt _ => True
  | PyInt x, NpInt y | NpInt x, PyInt y | NpInt x, NpInt y => in_int64 (x + y)
  | _, _ => True
  end.


(** [he_uniform] samples uniformly within [limit = sqrt(6 / fan_in)]. *)
Definition he_uniform_call_as_specified `{Backend}
    (seed : option Z) (shape : list Z) (dtype : option string) (w : world) : Prop :=
  exists (self : VarianceScaling.t) (fan_in fan_out : number),
    he_uniform seed = Ok self
    /\ _compute_fans shape default_data_format = Ok (fan_in, fan_out)
    /\ let limit := sqrt (6 / to_R fan_in) in
       VarianceScaling.__call__ self shape dtype w
       = draw (K_random_uniform shape (- limit) limit dtype seed) w.

(** A valid shape small enough for every product the fan calculator
    forms, and the sum of the two fans, to fit in 64 bits. *)
Definition moderate_shape (shape : list Z) : Prop :=
  valid_shape shape /\ product shape * product shape < 2 ^ 62.

(** ** Constructor signatures

    The parameters of each [__init__] and the instance its defaults build. *)

Definition params (cls : class) : list string :=
  match cls with
  | CZeros | COnes => []
  | CConstant => ["value"]
  | CRandomNormal | CTruncatedNormal => ["mean"; "stddev"; "seed"]
  | CRandomUniform => ["minval"; "maxval"; "seed"]
  | CVarianceScaling => ["scale"; "mode"; "distribution"; "seed"]
  | COrthogonal => ["gain"; "seed"]
  | CConvolutionAware => ["eps_std"; "seed"]
  | CIdentity => ["gain"]
  end.

Definition default_instance (cls : class) : initializer :=
  match cls with
  | CZeros => IZeros Zeros.mk
  | COnes => IOnes Ones.mk
  | CConstant => IConstant (Constant.mk 0)
  | CRandomNormal => IRandomNormal (RandomNormal.mk 0 0.05 None)
  | CRandomUniform => IRandomUniform (RandomUniform.mk (-0.05) 0.05 None)
  | CTruncatedNormal => ITruncatedNormal (TruncatedNormal.mk 0 0.05 None)
  | CVarianceScaling => IVarianceScaling (VarianceScaling.mk 1 "fan_in" "normal" None)
  | COrthogonal => IOrthogonal (Orthogonal.mk 1 None)
  | CConvolutionAware =>
      IConvolutionAware (ConvolutionAware.mk 0.05 None (Orthogonal.mk 1 None))
  | CIdentity => IIdentity (Identity.mk 1)
  end.

(** What [VarianceScaling.__init__] checks, as a property of an instance. *)
Definition VarianceScaling_valid (self : VarianceScaling.t) : Prop :=
  (0 < VarianceScaling.scale self)%R
  /\ VarianceScaling.mode self ∈ VarianceScaling.modes
  /\ VarianceScaling.distribution self ∈ VarianceScaling.distributions.

(** ** Statistics of the entries of an array *)

Definition Rsum (l : list R) : R := fold_right Rplus 0%R l.

Definition mean (l : list R) : R := (Rsum l / INR (length l))%R.

(** The population variance, which [np.var] computes by default. *)
Definition variance (l : list R) : R :=
  mean (map (fun x => ((x - mean l) * (x - mean l))%R) l).

(** ** What numpy promises of the arrays [_create_basis] factors: the full
    factor [u] of a [size]-by-[size] matrix has [size] rows. *)
Definition square_factor_rows `{NumPy} (size : Z) : Prop :=
  forall g : rng,
    let a := fst (np_random_normal 0 1 [size; size] g) in
    length (np_tolist (np_T (fst (fst (np_linalg_svd
                                         (ConvolutionAware._symmetrize a) true)))))
    = Z.to_nat size.

(** ** A second instance, with the rows and the variance of an array

    As [Reference], but [tolist] cuts a matrix into its rows and [np.var] is
    the variance of the entries. *)

Module Numeric.

Definition rows_of (a : ndarray) : list (list R) :=
  match nd_shape a with
  | [r; c] =>
      map (fun i => firstn (Z.to_nat c) (skipn (i * Z.to_nat c) (nd_data a)))
          (seq 0 (Z.to_nat r))
  | _ => [nd_data a]
  end.

#[export] Instance numpy : NumPy := {|
  rng := Z * Z;
  np_random_seed := fun s => (s, 0);
  np_random_normal := Reference.normal;
  np_linalg_svd := fun a _ => (a, a, a);
  np_fft_irfft := fun a _ => a;
  np_fft_irfft2 := fun a _ => a;
  np_reshape := Reference.with_shape;
  np_corner := fun a _ _ => a;
  np_T := fun a => a;
  np_transpose := fun a _ => a;
  np_add := Reference.pointwise Rplus;
  np_sub := Reference.pointwise Rminus;
  np_diag := fun a => a;
  np_diagonal := fun a => a;
  np_var := fun a => variance (nd_data a);
  np_tolist := rows_of;
  np_array := fun rows _ =>
    {| nd_shape := [Z.of_nat (length rows)]; nd_data := concat rows |};
  np_iter := fun a => [a];
  np_array_nested := fun l _ =>
    {| nd_shape := [Z.of_nat (length l)];
       nd_data := concat (map nd_data (concat l)) |};
|}.

#[export] Instance backend : Backend := {|
  tensor := ndarray;
  K_constant := fun v shape _ =>
    {| nd_shape := shape; nd_data := repeat v (Z.to_nat (product shape)) |};
  K_random_normal := Reference.sampler;
  K_random_uniform := Reference.sampler;
  K_truncated_normal := Reference.sampler;
  K_image_data_format := "channels_last";
  K_floatx := "float32";
|}.

Definition start : world := {| gen := (0, 0); stdout := [] |}.

End Numeric.

(** * Properties *)

(** ** Python tuples and strings *)

Lemma lower_ascii_idempotent (c : ascii) :
  Py.lower_ascii (Py.lower_ascii c) = Py.lower_ascii c.
Proof.
  destruct c as [[] [] [] [] [] [] [] []]; vm_compute; reflexivity.
Qed.

Lemma lower_idempotent (s : string) : Py.lower (Py.lower s) = Py.lower s.
Proof.
  induction s as [|c s IH]; simpl; [reflexivity|].
  rewrite lower_ascii_idempotent, IH. reflexivity.
Qed.

Lemma getitem_0_cons (x : Z) (t : list Z) : Py.getitem (x :: t) 0 = Ok x.
Proof.
  unfold Py.getitem. cbn [length].
  replace (0 <? 0) with false by reflexivity.
  replace (0 <=? 0) with true by reflexivity.
  destruct (0 <? Z.of_nat (S (length t))) eqn:E; [reflexivity|].
  apply Z.ltb_ge in E. lia.
Qed.

Lemma getitem_1_cons (x y : Z) (t : list Z) : Py.getitem (x :: y :: t) 1 = Ok y.
Proof.
  unfold Py.getitem. cbn [length].
  replace (1 <? 0) with false by reflexivity.
  replace (0 <=? 1) with true by reflexivity.
  destruct (1 <? Z.of_nat (S (S (length t)))) eqn:E; [reflexivity|].
  apply Z.ltb_ge in E. lia.
Qed.

Lemma getitem_1_singleton (x : Z) : Py.getitem [x] 1 = Err IndexError.
Proof. reflexivity. Qed.

(** ** C1: the fan calculator on convolution kernels *)

Example compute_fans_dense :
  _compute_fans [64; 128] default_data_format = Ok (PyInt 64, PyInt 128).
Proof. vm_compute. reflexivity. Qed.

Example compute_fans_conv2d :
  _compute_fans [3; 3; 16; 32] "channels_last" = Ok (NpInt (3 * 3 * 16), NpInt (3 * 3 * 32)).
Proof. vm_compute. reflexivity. Qed.

(** On a shape of length 4 the dimensions [shape[:2]] the code multiplies
    are the spatial dimensions [shape[:-2]]. *)
Lemma compute_fans_channels_last_rank4 (a b c d : Z) :
  _compute_fans [a; b; c; d] "channels_last"
  = Ok (NpInt (wrap64 (c * np_prod (Py.slice_to [a; b; c; d] (-2)))),
        NpInt (wrap64 (d * np_prod (Py.slice_to [a; b; c; d] (-2))))).
Proof. reflexivity. Qed.

(** On a shape of length 3 they are not: the input depth is counted in the
    receptive field. *)
Lemma compute_fans_channels_last_rank3 (a b c : Z) :
  _compute_fans [a; b; c] "channels_last"
  = Ok (NpInt (wrap64 (b * np_prod [a; b])), NpInt (wrap64 (c * np_prod [a; b]))).
Proof. reflexivity. Qed.

(** On a shape of length 5 the third spatial dimension is left out. *)
Lemma compute_fans_channels_last_rank5 (a b c d e : Z) :
  _compute_fans [a; b; c; d; e] "channels_last"
  = Ok (NpInt (wrap64 (d * np_prod [a; b])), NpInt (wrap64 (e * np_prod [a; b]))).
Proof. reflexivity. Qed.

(** C1. On the 1D convolution kernel [(3, 16, 32)] in [channels_last]
    layout the fan calculator returns [(768, 1536)], whereas the receptive
    field [shape[:-2]] has size 3 and gives [fan_in = 16 * 3 = 48] and
    [fan_out = 32 * 3 = 96]. *)
Theorem compute_fans_channels_last_conv1d_defect :
  _compute_fans [3; 16; 32] "channels_last" = Ok (NpInt 768, NpInt 1536)
  /\ receptive_field_channels_last [3; 16; 32] = 3
  /\ 16 * receptive_field_channels_last [3; 16; 32] = 48
  /\ 32 * receptive_field_channels_last [3; 16; 32] = 96.
Proof. repeat split; vm_compute; reflexivity. Qed.

(** ** C4: validation in [VarianceScaling.__init__] *)

Lemma lower_in_modes_iff (mode : string) :
  Py.lower mode ∈ VarianceScaling.modes
  <-> exists m, m ∈ VarianceScaling.modes /\ eq_ignoring_case mode m.
Proof.
  unfold eq_ignoring_case, VarianceScaling.modes. split.
  - intros Hin. exists (Py.lower mode). split; [exact Hin|].
    symmetry. apply lower_idempotent.
  - intros (m & Hm & Heq). rewrite Heq.
    set_unfold. destruct Hm as [[-> | ->] | ->]; cbn; auto.
Qed.

Lemma lower_in_distributions_iff (distribution : string) :
  Py.lower distribution ∈ VarianceScaling.distributions
  <-> exists d, d ∈ VarianceScaling.distributions /\ eq_ignoring_case distribution d.
Proof.
  unfold eq_ignoring_case, VarianceScaling.distributions. split.
  - intros Hin. exists (Py.lower distribution). split; [exact Hin|].
    symmetry. apply lower_idempotent.
  - intros (d & Hd & Heq). rewrite Heq.
    set_unfold. destruct Hd as [-> | ->]; cbn; auto.
Qed.

(** What [__init__] does, by cases on its three checks. *)
Lemma VarianceScaling_init_cases (scale : R) (mode distribution : string) (seed : option Z) :
  ((scale <= 0)%R \/ Py.lower mode ∉ VarianceScaling.modes
     \/ Py.lower distribution ∉ VarianceScaling.distributions)
  /\ VarianceScaling.__init__ scale mode distribution seed = Err ValueError
  \/
  (~ (scale <= 0)%R /\ Py.lower mode ∈ VarianceScaling.modes
     /\ Py.lower distribution ∈ VarianceScaling.distributions)
  /\ VarianceScaling.__init__ scale mode distribution seed
     = Ok (VarianceScaling.mk scale (Py.lower mode) (Py.lower distribution) seed).
Proof.
  unfold VarianceScaling.__init__.
  destruct (Rle_dec scale 0) as [Hs | Hs]; [left; auto|].
  destruct (decide (Py.lower mode ∉ VarianceScaling.modes)) as [Hm | Hm];
    [left; auto|].
  destruct (decide (Py.lower distribution ∉ VarianceScaling.distributions)) as [Hd | Hd];
    [left; auto|].
  right. split; [|reflexivity].
  repeat split; [exact Hs | |]; apply dec_stable; assumption.
Qed.

(** C4. [VarianceScaling.__init__] raises [ValueError] (the specification's
    InvalidArgument) if and only if [scale <= 0], or [mode] is not, up to
    case, one of fan_in, fan_out, fan_avg, or [distribution] is not, up to
    case, one of normal, uniform; with any other arguments it returns an
    instance. *)
Theorem VarianceScaling_init_fails_iff
    (scale : R) (mode distribution : string) (seed : option Z) :
  let invalid :=
    (scale <= 0)%R
    \/ ~ (exists m, m ∈ VarianceScaling.modes /\ eq_ignoring_case mode m)
    \/ ~ (exists d, d ∈ VarianceScaling.distributions /\ eq_ignoring_case distribution d) in
  (VarianceScaling.__init__ scale mode distribution seed = Err ValueError <-> invalid)
  /\ (~ invalid ->
      exists self, VarianceScaling.__init__ scale mode distribution seed = Ok self).
Proof.
  intros invalid. subst invalid.
  rewrite <- lower_in_modes_iff, <- lower_in_distributions_iff.
  destruct (VarianceScaling_init_cases scale mode distribution seed)
    as [[Hbad ->] | [(Hs & Hm & Hd) ->]].
  - split; [tauto|]. intros Hn. tauto.
  - split.
    + split; [discriminate|]. intros [? | [? | ?]]; tauto.
    + intros _. eexists. reflexivity.
Qed.

Lemma VarianceScaling_init_fails_iff_witness :
  VarianceScaling.__init__ (-1) "fan_in" "normal" None = Err ValueError
  /\ exists self, VarianceScaling.__init__ 2 "Fan_In" "UNIFORM" (Some 7) = Ok self.
Proof.
  split.
  - apply (VarianceScaling_init_fails_iff (-1) "fan_in" "normal" None).
    left. lra.
  - apply (VarianceScaling_init_fails_iff 2 "Fan_In" "UNIFORM" (Some 7)).
    intros [Hs | [Hm | Hd]].
    + lra.
    + apply Hm. exists "fan_in". split; [set_solver | reflexivity].
    + apply Hd. exists "uniform". split; [set_solver | reflexivity].
Defined.

(** ** C7: [Identity] *)

Lemma scale_identity (g : R) (n : Z) (i : ndarray) :
  np_identity n = Ok i -> np_scale g i = scaled_identity g n.
Proof.
  unfold np_identity. destruct (n <? 0); [discriminate|].
  intros [= <-]. unfold np_scale, scaled_identity. cbn [nd_shape nd_data].
  f_equal. rewrite concat_map, map_map. f_equal.
  apply map_ext. intros i. unfold identity_row. rewrite map_map.
  apply map_ext. intros j. destruct (Nat.eqb i j); lra.
Qed.

(** C7. [Identity(gain=g)] called on [shape] returns [g] times the
    [n]-by-[n] identity exactly when [shape] is [(n, n)]; on any shape that
    is not a pair of equal entries it raises [ValueError] (the
    specification's InvalidArgument) and returns nothing. *)
Theorem Identity_call_iff (g : R) (shape : list Z) (dtype : option string) :
  (forall n, 0 <= n -> shape = [n; n] ->
     Identity.__call__ (Identity.mk g) shape dtype = Ok (scaled_identity g n))
  /\ (forall a, Identity.__call__ (Identity.mk g) shape dtype = Ok a ->
        exists n, 0 <= n /\ shape = [n; n] /\ a = scaled_identity g n)
  /\ ((forall n, shape <> [n; n]) ->
        Identity.__call__ (Identity.mk g) shape dtype = Err ValueError).
Proof.
  unfold Identity.__call__. case_decide as Hlen.
  - (* not a pair *)
    split; [|split].
    + intros n _ ->. exfalso. apply Hlen. reflexivity.
    + intros a [=].
    + reflexivity.
  - (* a pair *)
    assert (Hlen2 : length shape = 2%nat) by lia.
    destruct shape as [|x [|y [|z t]]]; try discriminate. clear Hlen Hlen2.
    rewrite getitem_0_cons, getitem_1_cons. cbn [mbind result_bind].
    case_decide as Hxy.
    + split; [|split]; intros; congruence.
    + assert (y = x) as -> by lia.
      unfold np_identity. destruct (x <? 0) eqn:E.
      * apply Z.ltb_lt in E. cbn. split; [|split].
        -- intros n Hn [= ->]. lia.
        -- intros a [=].
        -- reflexivity.
      * apply Z.ltb_ge in E. cbn.
        assert (Hs : forall i, np_identity x = Ok i -> np_scale g i = scaled_identity g x)
          by (intros i; apply scale_identity).
        unfold np_identity in Hs.
        destruct (x <? 0) eqn:E'; [apply Z.ltb_lt in E'; lia|].
        specialize (Hs _ eq_refl). split; [|split].
        -- intros n Hn [= ->]. rewrite Hs. reflexivity.
        -- intros a [= <-]. exists x. auto.
        -- intros Hall. exfalso. apply (Hall x). reflexivity.
Qed.

Lemma Identity_call_iff_witness :
  Identity.__call__ (Identity.mk 3) [2; 2] None = Ok (scaled_identity 3 2)
  /\ Identity.__call__ (Identity.mk 3) [2; 3] None = Err ValueError.
Proof.
  split.
  - apply (Identity_call_iff 3 [2; 2] None); [lia | reflexivity].
  - apply (Identity_call_iff 3 [2; 3] None). intros n. congruence.
Defined.

Example scaled_identity_2 (g : R) :
  nd_data (scaled_identity g 2) = [g; 0%R; 0%R; g].
Proof. reflexivity. Qed.

(** ** [Orthogonal] *)

Section OrthogonalProperties.
Context `{NumPy}.

(** The call on a shape that has a last entry, up to the corner
    extraction: the generator is advanced by one draw of the flattened
    shape, from the seed's state when a seed is set. *)
Lemma Orthogonal_call_unfold (self : Orthogonal.t) (shape : list Z)
    (dtype : option string) (w : world) (cols : Z) :
  Orthogonal.num_cols shape = Ok cols ->
  let flat_shape := [Orthogonal.num_rows shape; cols] in
  let drawn := np_random_normal 0 1 flat_shape
                 (draw_from (Orthogonal.seed self) (gen w)) in
  let '(u, _, v) := np_linalg_svd (fst drawn) false in
  let q := np_reshape (if decide (nd_shape u = flat_shape) then u else v) shape in
  Orthogonal.__call__ self shape dtype w
  = ((s0 ← Py.getitem shape 0;
      s1 ← Py.getitem shape 1;
      Ok (np_scale (Orthogonal.gain self) (np_corner q s0 s1))),
     {| gen := snd drawn; stdout := stdout w |}).
Proof.
  intros Hcols flat_shape drawn.
  unfold Orthogonal.__call__, mbind, M_bind, lift, draw, reseed, mret, M_ret.
  rewrite Hcols. fold flat_shape.
  destruct (Orthogonal.seed self) as [s|]; cbn [draw_from gen stdout snd] in *;
    fold drawn; destruct drawn as [a g]; cbn [fst snd];
    destruct (np_linalg_svd a false) as [[u ?] v];
    destruct (Py.getitem shape 0) as [s0|e0]; cbn; try reflexivity;
    destruct (Py.getitem shape 1) as [s1|e1]; cbn; reflexivity.
Qed.

(** On an empty shape the call stops at [shape[-1]], before any draw. *)
Lemma Orthogonal_call_empty (self : Orthogonal.t) (dtype : option string) (w : world) :
  Orthogonal.__call__ self [] dtype w = (Err IndexError, w).
Proof. reflexivity. Qed.

Lemma num_cols_cons (d : Z) (shape : list Z) :
  exists cols, Orthogonal.num_cols (d :: shape) = Ok cols.
Proof.
  unfold Orthogonal.num_cols, Py.getitem.
  replace (-1 <? 0) with true by reflexivity.
  set (n := Z.of_nat (length (d :: shape))).
  assert (Hn : 1 <= n) by (subst n; cbn [length]; lia).
  destruct (0 <=? -1 + n) eqn:E1; [|apply Z.leb_gt in E1; lia].
  destruct (-1 + n <? n) eqn:E2; [|apply Z.ltb_ge in E2; lia].
  cbn [andb].
  destruct (nth_error (d :: shape) (Z.to_nat (-1 + n))) as [x|] eqn:E; [eauto|].
  apply nth_error_None in E. subst n. cbn [length] in *. lia.
Qed.

(** C10. On a shape [(d,)] the flattening is well defined ([num_rows = 1],
    [num_cols = d]) but [shape[1]] does not exist, and the call raises
    [IndexError] instead of returning an array; a call that returns an
    array was made on a shape of length at least 2. *)
Theorem Orthogonal_call_needs_two_dimensions
    (self : Orthogonal.t) (dtype : option string) (w : world) :
  (forall d : Z,
      Orthogonal.num_rows [d] = 1
      /\ Orthogonal.num_cols [d] = Ok d
      /\ Py.getitem [d] 1 = Err IndexError
      /\ fst (Orthogonal.__call__ self [d] dtype w) = Err IndexError)
  /\ (forall (shape : list Z) (a : ndarray),
        fst (Orthogonal.__call__ self shape dtype w) = Ok a ->
        (2 <= length shape)%nat).
Proof.
  assert (Hone : forall d, fst (Orthogonal.__call__ self [d] dtype w) = Err IndexError).
  { intros d.
    pose proof (Orthogonal_call_unfold self [d] dtype w d eq_refl) as Hu.
    cbv zeta in Hu.
    destruct (np_linalg_svd _ _) as [[u ?] v]. rewrite Hu. reflexivity. }
  split.
  - intros d. repeat split. apply Hone.
  - intros [|d [|d' shape]] a Ha.
    + rewrite Orthogonal_call_empty in Ha. discriminate.
    + rewrite Hone in Ha. discriminate.
    + cbn [length]. lia.
Qed.
End OrthogonalProperties.

Lemma Orthogonal_call_needs_two_dimensions_witness :
  (2 <= length [2%Z; 2%Z])%nat.
Proof.
  eapply (proj2 (Orthogonal_call_needs_two_dimensions
                   (H := Reference.numpy) (Orthogonal.mk 1 None) None Reference.start)).
  reflexivity.
Defined.

(** ** C6: what a call changes outside itself *)

Section Silence.
Context `{NumPy}.

Lemma silent_ret {A : Type} (a : A) : silent (mret a).
Proof. intros w. reflexivity. Qed.

Lemma silent_lift {A : Type} (r : result A) : silent (lift r).
Proof. intros w. reflexivity. Qed.

Lemma silent_draw {A : Type} (f : rng -> A * rng) : silent (draw f).
Proof. intros w. unfold draw. destruct (f (gen w)). reflexivity. Qed.

Lemma silent_reseed (s : Z) : silent (reseed s).
Proof. intros w. reflexivity. Qed.

Lemma silent_bind {A B : Type} (m : M A) (k : A -> M B) :
  silent m -> (forall a, silent (k a)) -> silent (m ≫= k).
Proof.
  intros Hm Hk w. unfold mbind, M_bind. specialize (Hm w).
  destruct (m w) as [[a | e] w']; cbn [snd] in *.
  - rewrite Hk. exact Hm.
  - exact Hm.
Qed.

Lemma silent_fmap {A B : Type} (f : A -> B) (m : M A) :
  silent m -> silent (f <$> m).
Proof.
  intros Hm w. unfold fmap, M_fmap. specialize (Hm w).
  destruct (m w) as [[a | e] w']; exact Hm.
Qed.

Lemma silent_for_range {A : Type} (n : nat) (body : M A) :
  silent body -> silent (for_range n body).
Proof.
  intros Hb. induction n as [|n IH]; cbn [for_range].
  - apply silent_ret.
  - apply silent_bind; [exact Hb|]. intros a.
    apply silent_bind; [exact IH|]. intros l. apply silent_ret.
Qed.

Lemma silent_for_each {A B : Type} (body : A -> M B) (l : list A) :
  (forall x, silent (body x)) -> silent (for_each body l).
Proof.
  intros Hb. induction l as [|x l IH]; cbn [for_each].
  - apply silent_ret.
  - apply silent_bind; [apply Hb|]. intros b.
    apply silent_bind; [exact IH|]. intros bs. apply silent_ret.
Qed.

Lemma Orthogonal_call_silent (self : Orthogonal.t) (shape : list Z) (dtype : option string) :
  silent (Orthogonal.__call__ self shape dtype).
Proof.
  unfold Orthogonal.__call__.
  apply silent_bind; [apply silent_lift|]. intros cols.
  apply silent_bind; [destruct (Orthogonal.seed self); [apply silent_reseed | apply silent_ret]|].
  intros _. apply silent_bind; [apply silent_draw|]. intros a.
  destruct (np_linalg_svd a false) as [[u ?] v].
  apply silent_bind; [apply silent_lift|]. intros s0.
  apply silent_bind; [apply silent_lift|]. intros s1.
  apply silent_ret.
Qed.
End Silence.

Create HintDb silent.
#[local] Hint Resolve silent_ret silent_lift silent_draw silent_reseed
  silent_for_range silent_for_each Orthogonal_call_silent : silent.

Section Frame.
Context `{Backend}.

Lemma create_basis_silent (self : ConvolutionAware.t) (filters size : Z) :
  silent (ConvolutionAware._create_basis self filters size).
Proof.
  unfold ConvolutionAware._create_basis. case_decide; [auto with silent|].
  apply silent_bind; [|auto with silent].
  apply silent_for_range.
  apply silent_bind; [auto with silent|]. intros a.
  destruct (np_linalg_svd _ true) as [[u ?] v]. auto with silent.
Qed.

Lemma fourier_filters_silent (self : ConvolutionAware.t)
    (axes kernel_shape : list Z) (fft : ndarray -> option (list Z) -> ndarray)
    (stack_size filters_size : Z) (variance : R) :
  silent (ConvolutionAware.fourier_filters self axes kernel_shape fft
            stack_size filters_size variance).
Proof.
  unfold ConvolutionAware.fourier_filters.
  apply silent_bind; [|auto with silent].
  apply silent_for_range.
  apply silent_bind; [apply create_basis_silent|]. intros basis.
  apply silent_for_each. intros x.
  apply silent_bind; auto with silent.
Qed.

(** Only the branch for rank 4 prints. *)
Lemma ConvolutionAware_call_silent (self : ConvolutionAware.t) (shape : list Z) :
  length shape <> 4%nat -> silent (ConvolutionAware.__call__ self shape).
Proof.
  intros Hrank. unfold ConvolutionAware.__call__.
  apply silent_bind; [auto with silent|]. intros [fan_in fan_out].
  apply silent_bind; [auto with silent|]. intros variance.
  case_decide.
  - destruct shape as [|? [|? [|? [|]]]]; auto using fourier_filters_silent with silent.
  - case_decide; [lia|]. auto with silent.
Qed.
End Frame.

(** C6, as stated, fails on the reference generator: from the same state,
    the state left by [Orthogonal(seed=1)] on shape [(2, 2)] is not the state
    left by [Orthogonal(seed=2)]. *)
Lemma Orthogonal_seed_reaches_generator :
  ~ generator_unaffected_by_seed
      (fun seed => Orthogonal.__call__ (H := Reference.numpy)
                     (Orthogonal.__init__ 1 seed) [2; 2] None).
Proof.
  intros Hframe.
  specialize (Hframe (Some 1) (Some 2) Reference.start).
  lazy in Hframe. discriminate Hframe.
Qed.

(** C6, amended.  A call writes nothing but the generator (the line
    [ConvolutionAware] prints on a shape of rank 4 is left aside), and the
    constant and identity initializers do not touch the generator either.
    [Orthogonal] does: on a shape that is not empty, the generator state
    its call leaves is the state reached by the call's draw from the state
    [np.random.seed(seed)] installs when the instance has a seed, whatever
    the state before, and from the state before when it has none. *)
Theorem calls_write_only_the_generator `{Backend}
    (i : initializer) (shape : list Z) (w : world) :
  (forall self, i = IConvolutionAware self -> length shape <> 4%nat) ->
  stdout (snd (call i shape w)) = stdout w
  /\ (class_of i ∈ [CZeros; COnes; CConstant; CIdentity] -> snd (call i shape w) = w)
  /\ (forall self cols,
        i = IOrthogonal self -> Orthogonal.num_cols shape = Ok cols ->
        gen (snd (call i shape w))
        = snd (np_random_normal 0 1 [Orthogonal.num_rows shape; cols]
                 (draw_from (Orthogonal.seed self) (gen w)))
        /\ (forall (s : Z) (w2 : world),
              Orthogonal.seed self = Some s ->
              gen (snd (call i shape w)) = gen (snd (call i shape w2)))).
Proof.
  intros Hrank.
  assert (Horth : forall self cols w0,
             Orthogonal.num_cols shape = Ok cols ->
             gen (snd (call (IOrthogonal self) shape w0))
             = snd (np_random_normal 0 1 [Orthogonal.num_rows shape; cols]
                      (draw_from (Orthogonal.seed self) (gen w0)))).
  { intros self cols w0 Hcols. cbn [call]. unfold fmap, M_fmap.
    pose proof (Orthogonal_call_unfold self shape None w0 cols Hcols) as Hu.
    cbv zeta in Hu. destruct (np_linalg_svd _ false) as [[u ?] v].
    rewrite Hu. destruct (_ ≫= _); reflexivity. }
  split; [|split].
  - assert (Hs : silent (call i shape)).
    { destruct i; cbn [call]; apply silent_fmap;
        unfold Zeros.__call__, Ones.__call__, Constant.__call__,
          RandomNormal.__call__, RandomUniform.__call__, TruncatedNormal.__call__;
        auto with silent.
      - unfold VarianceScaling.__call__.
        apply silent_bind; [auto with silent|]. intros [fan_in fan_out].
        case_decide; apply silent_draw.
      - apply ConvolutionAware_call_silent. eauto. }
    apply Hs.
  - intros Hcls. destruct i; cbn in Hcls; set_unfold in Hcls;
      try (exfalso; intuition discriminate).
    + reflexivity.
    + reflexivity.
    + reflexivity.
    + cbn [call]. unfold fmap, M_fmap, lift.
      destruct (Identity.__call__ self shape None); reflexivity.
  - intros self cols -> Hcols. split; [apply Horth; exact Hcols|].
    intros s w2 Hseed. rewrite !(Horth _ cols) by exact Hcols.
    rewrite Hseed. reflexivity.
Qed.

Lemma calls_write_only_the_generator_witness :
  let w := @Build_world Reference.numpy (5, 9) [[1]] in
  let after := snd (call (H := Reference.numpy) (H0 := Reference.backend)
                      (IOrthogonal (Orthogonal.__init__ 1 (Some 3))) [2; 2] w) in
  stdout after = [[1]] /\ gen after = (3, 4).
Proof.
  intros w after.
  destruct (calls_write_only_the_generator
              (H := Reference.numpy) (H0 := Reference.backend)
              (IOrthogonal (Orthogonal.__init__ 1 (Some 3))) [2; 2] w)
    as (Hout & _ & Hgen).
  - intros self [=].
  - split; [exact Hout|].
    destruct (Hgen (Orthogonal.__init__ 1 (Some 3)) 2 eq_refl eq_refl) as [-> _].
    reflexivity.
Defined.

(** ** C2: reproducibility of seeded initializers *)

Section Reproducibility.
Context `{BackendSeeded}.

Lemma deterministic_fmap {A B : Type} (f : A -> B) (m : M A) :
  deterministic m -> deterministic (f <$> m).
Proof.
  intros Hm w1 w2. unfold fmap, M_fmap. specialize (Hm w1 w2).
  destruct (m w1) as [[a1 | e1] ?], (m w2) as [[a2 | e2] ?];
    cbn [fst] in *; congruence.
Qed.

Lemma deterministic_seeded_draw {T : Type}
    (sample : list Z -> R -> R -> option string -> option Z -> rng -> T * rng)
    (shape : list Z) (a b : R) (dtype : option string) (s : Z) :
  seeded_sampler sample -> deterministic (draw (sample shape a b dtype (Some s))).
Proof.
  intros Hs w1 w2. unfold draw. specialize (Hs shape a b dtype s (gen w1) (gen w2)).
  destruct (sample shape a b dtype (Some s) (gen w1)),
           (sample shape a b dtype (Some s) (gen w2)).
  cbn [fst] in *. congruence.
Qed.

Lemma Orthogonal_seeded_deterministic
    (self : Orthogonal.t) (shape : list Z) (dtype : option string) (s : Z) :
  Orthogonal.seed self = Some s -> deterministic (Orthogonal.__call__ self shape dtype).
Proof.
  intros Hseed w1 w2. destruct shape as [|d shape'].
  - rewrite !Orthogonal_call_empty. reflexivity.
  - destruct (num_cols_cons d shape') as [cols Hcols].
    pose proof (Orthogonal_call_unfold self _ dtype w1 cols Hcols) as Hu1.
    pose proof (Orthogonal_call_unfold self _ dtype w2 cols Hcols) as Hu2.
    cbv zeta in Hu1, Hu2. rewrite Hseed in Hu1, Hu2. cbn [draw_from] in Hu1, Hu2.
    destruct (np_linalg_svd _ false) as [[u ?] v].
    rewrite Hu1, Hu2. reflexivity.
Qed.

(** The claim holds of every seeded initializer but [ConvolutionAware],
    given a backend whose seeded samplers are reproducible. *)
Lemma seeded_calls_deterministic (i : initializer) (shape : list Z) (s : Z) :
  seed_of i = Some s -> class_of i <> CConvolutionAware ->
  deterministic (call i shape).
Proof.
  intros Hseed Hcls.
  destruct i; cbn [seed_of class_of call] in *; try discriminate; try congruence;
    apply deterministic_fmap.
  - unfold RandomNormal.__call__. rewrite Hseed.
    apply deterministic_seeded_draw, K_random_normal_seeded.
  - unfold RandomUniform.__call__. rewrite Hseed.
    apply deterministic_seeded_draw, K_random_uniform_seeded.
  - unfold TruncatedNormal.__call__. rewrite Hseed.
    apply deterministic_seeded_draw, K_truncated_normal_seeded.
  - unfold VarianceScaling.__call__. rewrite Hseed. intros w1 w2.
    unfold mbind, M_bind, lift.
    destruct (_compute_fans shape default_data_format) as [[fan_in fan_out] | e];
      [|reflexivity].
    case_decide.
    + apply deterministic_seeded_draw, K_truncated_normal_seeded.
    + apply deterministic_seeded_draw, K_random_uniform_seeded.
  - eapply Orthogonal_seeded_deterministic. exact Hseed.
Qed.
End Reproducibility.

(** C2. [ConvolutionAware.__call__] never reads [self.seed]: an instance
    built with a seed is, on every shape and in every state of the world,
    the same computation as the instance built without one, whose draws
    continue the process-wide generator from wherever it stands.  Run on
    the reference instance, two successive calls of [ConvolutionAware(seed=7)]
    on the shape [(2, 2)] show it: the first leaves the generator four
    values further in the stream it was in (not the stream of seed 7), the
    second starts there and returns another array. *)
Theorem ConvolutionAware_call_ignores_seed :
  (forall (np : NumPy) (K : Backend) (eps_std : R) (s : Z) (shape : list Z) (w : world),
      ConvolutionAware.__call__ (ConvolutionAware.__init__ eps_std (Some s)) shape w
      = ConvolutionAware.__call__ (ConvolutionAware.__init__ eps_std None) shape w)
  /\ (let self := ConvolutionAware.__init__ 0.05 (Some 7) in
      let first := ConvolutionAware.__call__ (H0 := Reference.backend) self [2; 2]
                     Reference.start in
      let second := ConvolutionAware.__call__ (H0 := Reference.backend) self [2; 2]
                      (snd first) in
      gen (snd first) = (0, 4) /\ gen (snd second) = (0, 8)
      /\ fst first <> fst second).
Proof.
  split; [reflexivity|].
  split; [reflexivity|].
  split; [reflexivity|].
  intros Heq.
  cbv -[Rplus Rmult Rdiv Rinv IZR] in Heq.
  injection Heq. intros Hd _ _ _. clear - Hd. lra.
Qed.

(** ** The fans of a valid shape *)

Lemma product_pos (shape : list Z) : valid_shape shape -> 1 <= product shape.
Proof.
  induction 1 as [|d shape Hd _ IH].
  - cbn. lia.
  - change (product (d :: shape)) with (d * product shape). nia.
Qed.

Lemma wrap64_id (z : Z) : in_int64 z -> wrap64 z = z.
Proof.
  unfold in_int64, wrap64. intros Hz. rewrite Z.mod_small by lia. lia.
Qed.

Lemma compute_fans_total (shape : list Z) (data_format : string) :
  data_format = "channels_first" \/ data_format = "channels_last" ->
  exists fan_in fan_out, _compute_fans shape data_format = Ok (fan_in, fan_out).
Proof.
  intros Hfmt. unfold _compute_fans. case_decide as H2.
  - assert (Hlen : length shape = 2%nat) by lia.
    destruct shape as [|a [|b [|]]]; try discriminate. cbn. eauto.
  - case_decide as Hconv; [|eauto].
    unfold conv_ranks in Hconv. set_unfold in Hconv.
    assert (Hlen : length shape = 3%nat \/ length shape = 4%nat \/ length shape = 5%nat)
      by lia.
    destruct shape as [|a [|b [|c [|d [|e [|]]]]]]; cbn [length] in Hlen; try lia;
      destruct Hfmt as [-> | ->]; cbn; eauto.
Qed.


(** ** C5: [ConvolutionAware] outside the ranks 3 and 4 *)



(** ** C3 and C8: [VarianceScaling] and its presets *)

Lemma py_max_Rmax (a b : R) : py_max a b = Rmax a b.
Proof.
  unfold py_max, Rmax. destruct (Rlt_dec a b), (Rle_dec a b); lra.
Qed.

Lemma to_R_number_add (a b : number) :
  sum_fits a b -> to_R (number_add a b) = (to_R a + to_R b)%R.
Proof.
  destruct a, b; cbn [number_add to_R sum_fits]; intros Hfit;
    rewrite ?wrap64_id by exact Hfit; try apply plus_IZR; reflexivity.
Qed.

(** The call on any instance: the divisor is the fan, or the half sum of
    the fans, that the mode selects, and the sampler is chosen by the
    distribution. *)
Lemma VarianceScaling_call_form `{Backend}
    (self : VarianceScaling.t) (shape : list Z) (dtype : option string) (w : world) :
  exists (fan_in fan_out : number) (n : R),
    _compute_fans shape default_data_format = Ok (fan_in, fan_out)
    /\ n = (if decide (VarianceScaling.mode self = "fan_in") then to_R fan_in
            else if decide (VarianceScaling.mode self = "fan_out") then to_R fan_out
            else to_R (number_add fan_in fan_out) / 2)%R
    /\ VarianceScaling.__call__ self shape dtype w
       = (if decide (VarianceScaling.distribution self = "normal")
          then draw (K_truncated_normal shape 0
                       (sqrt (VarianceScaling.scale self / Rmax 1 n)) dtype
                       (VarianceScaling.seed self))
          else draw (K_random_uniform shape
                       (- sqrt (3 * (VarianceScaling.scale self / Rmax 1 n)))
                       (sqrt (3 * (VarianceScaling.scale self / Rmax 1 n))) dtype
                       (VarianceScaling.seed self))) w.
Proof.
  destruct (compute_fans_total shape default_data_format (or_intror eq_refl))
    as (fan_in & fan_out & Hfans).
  exists fan_in, fan_out. eexists. split; [exact Hfans|]. split; [reflexivity|].
  unfold VarianceScaling.__call__, mbind, M_bind, lift. rewrite Hfans.
  rewrite !py_max_Rmax.
  repeat case_decide; reflexivity.
Qed.

Lemma VarianceScaling_init_ok (scale : R) (mode distribution : string) (seed : option Z) :
  (0 < scale)%R ->
  Py.lower mode ∈ VarianceScaling.modes ->
  Py.lower distribution ∈ VarianceScaling.distributions ->
  VarianceScaling.__init__ scale mode distribution seed
  = Ok (VarianceScaling.mk scale (Py.lower mode) (Py.lower distribution) seed).
Proof.
  intros Hs Hm Hd.
  destruct (VarianceScaling_init_cases scale mode distribution seed)
    as [[[? | [? | ?]] _] | [_ ->]]; [lra | tauto | tauto | reflexivity].
Qed.




Lemma preset_init (scale : R) (mode distribution : string) (seed : option Z) :
  (0 < scale)%R ->
  mode ∈ VarianceScaling.modes -> distribution ∈ VarianceScaling.distributions ->
  VarianceScaling.__init__ scale mode distribution seed
  = Ok (VarianceScaling.mk scale mode distribution seed).
Proof.
  intros Hs Hm Hd.
  assert (Hlm : Py.lower mode = mode).
  { unfold VarianceScaling.modes in Hm. set_unfold in Hm.
    destruct Hm as [[-> | ->] | ->]; reflexivity. }
  assert (Hld : Py.lower distribution = distribution).
  { unfold VarianceScaling.distributions in Hd. set_unfold in Hd.
    destruct Hd as [-> | ->]; reflexivity. }
  rewrite VarianceScaling_init_ok; rewrite ?Hlm, ?Hld; auto.
Qed.

(** C8, as stated, fails where the guard [max(1., fan_in)] acts: on the
    valid shape [(2^32, 2^32, 1, 1)] the 64-bit product of the fan
    calculator is 0, and [he_uniform] samples within [sqrt(6)], not within
    [sqrt(6 / fan_in)]. *)
Lemma he_uniform_limit_on_zero_fan :
  let shape := [4294967296; 4294967296; 1; 1] in
  valid_shape shape
  /\ _compute_fans shape default_data_format = Ok (NpInt 0, NpInt 0)
  /\ ~ he_uniform_call_as_specified (H0 := Recording.backend)
        None shape None Reference.start.
Proof.
  intros shape. split; [repeat constructor|].
  assert (Hcode : _compute_fans shape default_data_format = Ok (NpInt 0, NpInt 0))
    by (vm_compute; reflexivity).
  split; [exact Hcode|].
  intros (self & fan_in & fan_out & Hself & Hfans & Hlimit).
  rewrite Hcode in Hfans. injection Hfans as <- <-.
  unfold he_uniform in Hself. rewrite preset_init in Hself;
    [|lra | unfold VarianceScaling.modes; set_solver
     | unfold VarianceScaling.distributions; set_solver].
  injection Hself as <-. cbv zeta in Hlimit.
  destruct (VarianceScaling_call_form (H0 := Recording.backend)
              (VarianceScaling.mk 2 "fan_in" "uniform" None) shape None
              Reference.start) as (fi & fo & n & Hfans & Hn & Hcall).
  rewrite Hcode in Hfans. injection Hfans as <- <-.
  rewrite Hcall in Hlimit.
  cbn [VarianceScaling.mode VarianceScaling.distribution VarianceScaling.scale
       VarianceScaling.seed to_R] in *.
  rewrite decide_True in Hn by reflexivity.
  rewrite decide_False in Hlimit by discriminate. subst n.
  rewrite Rmax_left in Hlimit by lra. clear Hcall.
  unfold draw in Hlimit. cbn in Hlimit. injection Hlimit as _ Hsqrt.
  assert (Hclaimed : sqrt (6 / 0) = 0%R).
  { unfold Rdiv. rewrite Rinv_0, Rmult_0_r. apply sqrt_0. }
  rewrite Hclaimed in Hsqrt.
  assert (Hpos : (0 < sqrt (3 * (2 / 1)))%R) by (apply sqrt_lt_R0; lra).
  lra.
Qed.

(** C8, amended.  Each preset is the [VarianceScaling] instance of a fixed
    scale, mode and distribution, with the seed it is given.  Consequently
    [he_uniform] draws from the uniform law on [(-limit, limit)] with
    [limit = sqrt(6 / max(1, fan_in))], which is [sqrt(6 / fan_in)]
    whenever the fan calculator returns a [fan_in] of at least 1. *)
Theorem presets_are_VarianceScaling `{Backend} (seed : option Z) :
  lecun_uniform seed = Ok (VarianceScaling.mk 1 "fan_in" "uniform" seed)
  /\ glorot_normal seed = Ok (VarianceScaling.mk 1 "fan_avg" "normal" seed)
  /\ glorot_uniform seed = Ok (VarianceScaling.mk 1 "fan_avg" "uniform" seed)
  /\ he_normal seed = Ok (VarianceScaling.mk 2 "fan_in" "normal" seed)
  /\ he_uniform seed = Ok (VarianceScaling.mk 2 "fan_in" "uniform" seed)
  /\ forall (self : VarianceScaling.t) (shape : list Z) (dtype : option string)
            (fan_in fan_out : number) (w : world),
       he_uniform seed = Ok self ->
       _compute_fans shape default_data_format = Ok (fan_in, fan_out) ->
       let limit := sqrt (6 / Rmax 1 (to_R fan_in)) in
       VarianceScaling.__call__ self shape dtype w
       = draw (K_random_uniform shape (- limit) limit dtype seed) w
       /\ ((1 <= to_R fan_in)%R -> limit = sqrt (6 / to_R fan_in)).
Proof.
  assert (Hhe : he_uniform seed = Ok (VarianceScaling.mk 2 "fan_in" "uniform" seed)).
  { apply preset_init; [lra | |];
      unfold VarianceScaling.modes, VarianceScaling.distributions; set_solver. }
  repeat match goal with
         | |- _ = Ok _ /\ _ => split;
             [apply preset_init; [lra | |];
              unfold VarianceScaling.modes, VarianceScaling.distributions; set_solver|]
         end.
  intros self shape dtype fan_in fan_out w Hself Hfans limit.
  rewrite Hhe in Hself. injection Hself as <-.
  split.
  - destruct (VarianceScaling_call_form
                (VarianceScaling.mk 2 "fan_in" "uniform" seed) shape dtype w)
      as (fi & fo & n & Hfans' & Hn & Hcall).
    rewrite Hfans in Hfans'. injection Hfans' as <- <-.
    cbn [VarianceScaling.mode VarianceScaling.distribution VarianceScaling.scale
         VarianceScaling.seed] in *.
    rewrite decide_True in Hn by reflexivity. subst n.
    rewrite Hcall, decide_False by discriminate.
    assert (Hlimit : sqrt (3 * (2 / Rmax 1 (to_R fan_in))) = limit).
    { subst limit. f_equal. pose proof (Rmax_l 1 (to_R fan_in)). field. lra. }
    rewrite Hlimit. reflexivity.
  - intros Hin. subst limit. rewrite Rmax_right by exact Hin. reflexivity.
Qed.

Lemma presets_are_VarianceScaling_witness :
  VarianceScaling.__call__ (H0 := Reference.backend)
    (VarianceScaling.mk 2 "fan_in" "uniform" (Some 7)) [24; 10] None Reference.start
  = draw (K_random_uniform (Backend := Reference.backend) [24; 10]
            (- sqrt (6 / 24)) (sqrt (6 / 24)) None (Some 7)) Reference.start.
Proof.
  destruct (presets_are_VarianceScaling (H0 := Reference.backend) (Some 7))
    as (_ & _ & _ & _ & Hhe & Hlimit).
  destruct (Hlimit _ [24; 10] None (PyInt 24) (PyInt 10) Reference.start Hhe eq_refl)
    as [Hcall Heq].
  cbv zeta in Hcall, Heq. rewrite Hcall, Heq by (cbn [to_R]; lra). reflexivity.
Defined.

(** ** C9: configuration records *)

Lemma kw_seed_of_seed (c : config) (name : string) (seed : option Z) :
  c !! name = Some (of_seed seed) -> kw_seed c name = Ok seed.
Proof. unfold kw_seed. intros ->. destruct seed; reflexivity. Qed.

Lemma kw_float_PFloat (c : config) (name : string) (default x : R) :
  c !! name = Some (PFloat x) -> kw_float c name default = Ok x.
Proof. unfold kw_float. intros ->. reflexivity. Qed.

Lemma kw_str_PStr (c : config) (name : string) (default x : string) :
  c !! name = Some (PStr x) -> kw_str c name default = Ok x.
Proof. unfold kw_str. intros ->. reflexivity. Qed.

Lemma bind_keywords_ok (params : list string) (c : config) :
  dom c ⊆ (list_to_set params : gset string) -> bind_keywords params c = Ok ().
Proof. intros Hdom. unfold bind_keywords. rewrite decide_True by exact Hdom. reflexivity. Qed.

(** Binding the keywords of a record that [get_config] made. *)
Ltac bind_config :=
  rewrite bind_keywords_ok by (rewrite ?dom_insert_L, ?dom_singleton_L, ?dom_empty_L; set_solver);
  cbn [mbind result_bind];
  repeat first
    [ erewrite kw_float_PFloat by (simplify_map_eq; reflexivity)
    | erewrite kw_str_PStr by (simplify_map_eq; reflexivity)
    | erewrite kw_seed_of_seed by (simplify_map_eq; reflexivity) ];
  cbn [mbind result_bind].

Lemma Zeros_round_trip (self : Zeros.t) :
  Zeros.from_config (Zeros.get_config self) = Ok self.
Proof.
  destruct self. unfold Zeros.from_config, Zeros.get_config, Initializer.get_config.
  bind_config. reflexivity.
Qed.

Lemma Ones_round_trip (self : Ones.t) :
  Ones.from_config (Ones.get_config self) = Ok self.
Proof.
  destruct self. unfold Ones.from_config, Ones.get_config, Initializer.get_config.
  bind_config. reflexivity.
Qed.

Lemma Constant_round_trip (self : Constant.t) :
  Constant.from_config (Constant.get_config self) = Ok self.
Proof.
  destruct self. unfold Constant.from_config, Constant.get_config.
  bind_config. reflexivity.
Qed.

Lemma RandomNormal_round_trip (self : RandomNormal.t) :
  RandomNormal.from_config (RandomNormal.get_config self) = Ok self.
Proof.
  destruct self. unfold RandomNormal.from_config, RandomNormal.get_config.
  bind_config. reflexivity.
Qed.

Lemma RandomUniform_round_trip (self : RandomUniform.t) :
  RandomUniform.from_config (RandomUniform.get_config self) = Ok self.
Proof.
  destruct self. unfold RandomUniform.from_config, RandomUniform.get_config.
  bind_config. reflexivity.
Qed.

Lemma TruncatedNormal_round_trip (self : TruncatedNormal.t) :
  TruncatedNormal.from_config (TruncatedNormal.get_config self) = Ok self.
Proof.
  destruct self. unfold TruncatedNormal.from_config, TruncatedNormal.get_config.
  bind_config. reflexivity.
Qed.

Lemma Orthogonal_round_trip (self : Orthogonal.t) :
  Orthogonal.from_config (Orthogonal.get_config self) = Ok self.
Proof.
  destruct self. unfold Orthogonal.from_config, Orthogonal.get_config.
  bind_config. reflexivity.
Qed.

Lemma Identity_round_trip (self : Identity.t) :
  Identity.from_config (Identity.get_config self) = Ok self.
Proof.
  destruct self. unfold Identity.from_config, Identity.get_config.
  bind_config. reflexivity.
Qed.

(** The inner [Orthogonal()] is not in the record; the constructor makes it
    anew. *)
Lemma ConvolutionAware_round_trip (eps_std : R) (seed : option Z) :
  let self := ConvolutionAware.__init__ eps_std seed in
  ConvolutionAware.from_config (ConvolutionAware.get_config self) = Ok self.
Proof.
  cbv zeta. unfold ConvolutionAware.from_config, ConvolutionAware.get_config.
  cbn [ConvolutionAware.__init__ ConvolutionAware.eps_std ConvolutionAware.seed].
  bind_config. reflexivity.
Qed.

(** The record holds the mode and the distribution in lower case, which
    the constructor accepts again and leaves as they are. *)
Lemma VarianceScaling_round_trip
    (scale : R) (mode distribution : string) (seed : option Z) (self : VarianceScaling.t) :
  VarianceScaling.__init__ scale mode distribution seed = Ok self ->
  VarianceScaling.from_config (VarianceScaling.get_config self) = Ok self.
Proof.
  intros Hinit.
  destruct (VarianceScaling_init_cases scale mode distribution seed)
    as [[_ Hbad] | [(Hs & Hm & Hd) Hok]]; [congruence|].
  rewrite Hok in Hinit. injection Hinit as <-.
  unfold VarianceScaling.from_config, VarianceScaling.get_config.
  cbn [VarianceScaling.mode VarianceScaling.distribution VarianceScaling.scale
       VarianceScaling.seed].
  bind_config.
  rewrite VarianceScaling_init_ok; rewrite ?lower_idempotent; auto. lra.
Qed.

(** C9. For an instance of any class, built by its constructor, the record
    [get_config] returns is accepted by [from_config]; the instance it
    builds is the original one and has the same record. *)
Theorem get_config_round_trip (i : initializer) :
  constructed i ->
  exists i' : initializer,
    from_config (class_of i) (get_config i) = Ok i'
    /\ get_config i' = get_config i
    /\ i' = i.
Proof.
  intros Hc. exists i. split; [|split; reflexivity].
  destruct i as [self|self|self|self|self|self|self|self|self|self];
    cbn [class_of from_config get_config constructed] in *.
  - rewrite Zeros_round_trip. reflexivity.
  - rewrite Ones_round_trip. reflexivity.
  - rewrite Constant_round_trip. reflexivity.
  - rewrite RandomNormal_round_trip. reflexivity.
  - rewrite RandomUniform_round_trip. reflexivity.
  - rewrite TruncatedNormal_round_trip. reflexivity.
  - destruct Hc as (scale & mode & distribution & seed & Hinit).
    rewrite (VarianceScaling_round_trip _ _ _ _ _ Hinit). reflexivity.
  - rewrite Orthogonal_round_trip. reflexivity.
  - destruct Hc as (eps_std & seed & ->).
    rewrite ConvolutionAware_round_trip. reflexivity.
  - rewrite Identity_round_trip. reflexivity.
Qed.

Lemma get_config_round_trip_witness :
  let self := VarianceScaling.mk 2 "fan_avg" "uniform" (Some 7) in
  exists i' : initializer,
    from_config CVarianceScaling (VarianceScaling.get_config self) = Ok i'
    /\ get_config i' = VarianceScaling.get_config self
    /\ i' = IVarianceScaling self.
Proof.
  apply (get_config_round_trip
           (IVarianceScaling (VarianceScaling.mk 2 "fan_avg" "uniform" (Some 7)))).
  exists 2%R, "Fan_Avg", "UNIFORM", (Some 7).
  apply VarianceScaling_init_ok; [lra | vm_compute; set_solver | vm_compute; set_solver].
Defined.

(** * Further properties of the code *)

(** ** The fan calculator *)

Lemma conv_rank_cases (shape : list Z) :
  Z.of_nat (length shape) ∈ conv_ranks ->
  (exists a b c, shape = [a; b; c]) \/ (exists a b c d, shape = [a; b; c; d])
  \/ (exists a b c d e, shape = [a; b; c; d; e]).
Proof.
  unfold conv_ranks. set_unfold. intros Hlen.
  assert (Hn : length shape = 3%nat \/ length shape = 4%nat \/ length shape = 5%nat) by lia.
  destruct shape as [|a [|b [|c [|d [|e [|]]]]]]; cbn [length] in Hn; try lia; eauto 10.
Qed.



(** X2. On a 2D convolution kernel the two layouts agree: the fans of
    [(h, w, input, output)] in [channels_last] are the fans of
    [(output, input, h, w)] in [channels_first]. *)
Theorem compute_fans_layouts_agree_conv2d (h w i o : Z) :
  _compute_fans [h; w; i; o] "channels_last" = _compute_fans [o; i; h; w] "channels_first".
Proof. reflexivity. Qed.

Lemma slice_from_2 {A : Type} (x y : A) (t : list A) : Py.slice_from (x :: y :: t) 2 = t.
Proof.
  unfold Py.slice_from, Py.clamp. cbn [length].
  replace (2 <? 0) with false by reflexivity.
  replace (Z.to_nat (Z.min (Z.max 2 0) (Z.of_nat (S (S (length t)))))) with 2%nat by lia.
  reflexivity.
Qed.

(** Deciding that a closed integer fits in 64 bits. *)
Ltac fits_int64 :=
  unfold in_int64; split; [apply Z.leb_le | apply Z.ltb_lt]; vm_compute; reflexivity.

(** X3. In [channels_first] layout the fans of a convolution kernel
    [(output, input, spatial...)] of rank 3, 4 or 5 are
    [input * prod(spatial)] and [output * prod(spatial)], as long as these
    three products fit in 64 bits. *)
Theorem compute_fans_channels_first (o i : Z) (spatial : list Z) :
  Z.of_nat (length (o :: i :: spatial)) ∈ conv_ranks ->
  in_int64 (product spatial) ->
  in_int64 (i * product spatial) ->
  in_int64 (o * product spatial) ->
  _compute_fans (o :: i :: spatial) "channels_first"
  = Ok (NpInt (i * product spatial), NpInt (o * product spatial)).
Proof.
  intros Hconv Hs Hi Ho. unfold _compute_fans.
  rewrite decide_False.
  - rewrite (decide_True (P := _ ∈ conv_ranks)) by exact Hconv.
    rewrite (decide_True (P := "channels_first" = "channels_first")) by reflexivity.
    rewrite slice_from_2, getitem_1_cons, getitem_0_cons. cbn [mbind result_bind].
    unfold np_prod. rewrite (wrap64_id _ Hs), (wrap64_id _ Hi), (wrap64_id _ Ho).
    reflexivity.
  - intros Hlen. rewrite Hlen in Hconv. unfold conv_ranks in Hconv. set_unfold in Hconv. lia.
Qed.

Lemma compute_fans_channels_first_witness :
  _compute_fans [32; 16; 3; 3; 3] "channels_first" = Ok (NpInt (16 * 27), NpInt (32 * 27)).
Proof.
  apply (compute_fans_channels_first 32 16 [3; 3; 3]).
  - vm_compute. set_solver.
  - fits_int64.
  - fits_int64.
  - fits_int64.
Defined.



(** X5. On a convolution kernel in [channels_last] layout the fans are in
    the proportion of the input depth [shape[-2]] to the output depth
    [shape[-1]], whatever the rank, as long as the products formed fit in
    64 bits. *)
Theorem compute_fans_channels_last_ratio (shape : list Z) (i o : Z) :
  Z.of_nat (length shape) ∈ conv_ranks ->
  Py.getitem shape (-2) = Ok i ->
  Py.getitem shape (-1) = Ok o ->
  in_int64 (product (Py.slice_to shape 2)) ->
  in_int64 (i * product (Py.slice_to shape 2)) ->
  in_int64 (o * product (Py.slice_to shape 2)) ->
  exists fan_in fan_out,
    _compute_fans shape "channels_last" = Ok (NpInt fan_in, NpInt fan_out)
    /\ fan_in * o = fan_out * i.
Proof.
  intros Hconv Hi Ho Hr Hfi Hfo.
  exists (i * product (Py.slice_to shape 2)), (o * product (Py.slice_to shape 2)).
  split; [|lia].
  unfold _compute_fans. rewrite decide_False.
  - rewrite (decide_True (P := _ ∈ conv_ranks)) by exact Hconv.
    rewrite (decide_False (P := "channels_last" = "channels_first")) by discriminate.
    rewrite (decide_True (P := "channels_last" = "channels_last")) by reflexivity.
    rewrite Hi, Ho. cbn [mbind result_bind].
    unfold np_prod. rewrite (wrap64_id _ Hr), (wrap64_id _ Hfi), (wrap64_id _ Hfo).
    reflexivity.
  - intros Hlen. rewrite Hlen in Hconv. unfold conv_ranks in Hconv. set_unfold in Hconv. lia.
Qed.

Lemma compute_fans_channels_last_ratio_witness :
  exists fan_in fan_out,
    _compute_fans [3; 16; 32] "channels_last" = Ok (NpInt fan_in, NpInt fan_out)
    /\ fan_in * 32 = fan_out * 16.
Proof.
  apply (compute_fans_channels_last_ratio [3; 16; 32] 16 32).
  - vm_compute. set_solver.
  - reflexivity.
  - reflexivity.
  - fits_int64.
  - fits_int64.
  - fits_int64.
Defined.


Lemma wrap64_small (z : Z) : 0 <= z < 4611686018427387904 -> wrap64 z = z.
Proof. intros Hz. apply wrap64_id. unfold in_int64. lia. Qed.

Lemma moderate_product_bound (shape : list Z) :
  moderate_shape shape -> 1 <= product shape < 2147483648.
Proof.
  intros [Hvalid Hsq]. pose proof (product_pos shape Hvalid) as Hpos.
  change (2 ^ 62) with (2147483648 * 2147483648) in Hsq. nia.
Qed.

Lemma slice_to_2 {A : Type} (x y : A) (t : list A) : Py.slice_to (x :: y :: t) 2 = [x; y].
Proof.
  unfold Py.slice_to, Py.clamp. cbn [length].
  replace (2 <? 0) with false by reflexivity.
  replace (Z.to_nat (Z.min (Z.max 2 0) (Z.of_nat (S (S (length t)))))) with 2%nat by lia.
  reflexivity.
Qed.

(** X6. On a shape of positive dimensions whose squared size is below
    [2^62], and with a known layout, the fan calculator returns, both fans
    lie between 1 and [2^62], and their sum is not cut to 64 bits. *)
Theorem compute_fans_valid (shape : list Z) (data_format : string) :
  moderate_shape shape ->
  data_format = "channels_first" \/ data_format = "channels_last" ->
  exists fan_in fan_out,
    _compute_fans shape data_format = Ok (fan_in, fan_out)
    /\ (1 <= to_R fan_in < 4611686018427387904)%R
    /\ (1 <= to_R fan_out < 4611686018427387904)%R
    /\ sum_fits fan_in fan_out.
Proof.
  intros Hmod Hfmt. pose proof (moderate_product_bound shape Hmod) as HP.
  destruct Hmod as [Hvalid _].
  unfold _compute_fans. case_decide as H2.
  - assert (Hlen : length shape = 2%nat) by lia.
    destruct shape as [|a [|b [|]]]; try discriminate.
    inversion_clear Hvalid as [|? ? Ha Hv]. inversion_clear Hv as [|? ? Hb _].
    change (product [a; b]) with (a * (b * 1)) in HP.
    cbn. eexists _, _. split; [reflexivity|]. cbn [to_R sum_fits].
    repeat split; first [apply IZR_le | apply IZR_lt | exact I]; nia.
  - case_decide as Hconv.
    + destruct (conv_rank_cases shape Hconv)
        as [(a & b & c & ->) | [(a & b & c & d & ->) | (a & b & c & d & e & ->)]];
        repeat match goal with
               | Hv : valid_shape (_ :: _) |- _ => inversion_clear Hv
               | Hv : Forall _ (_ :: _) |- _ => inversion_clear Hv
               end;
        cbn [product fold_right] in HP;
        destruct Hfmt as [-> | ->];
        (eexists _, _; split; [reflexivity|]); cbn;
        rewrite ?slice_from_2, ?slice_to_2; unfold np_prod; cbn [product fold_right];
        repeat match goal with
               | Hx : 0 < ?x |- _ =>
                   lazymatch goal with
                   | _ : x < 2147483648 |- _ => fail
                   | _ => assert (x < 2147483648) by nia
                   end
               end.
      all: try (assert (a * b < 2147483648) by nia).
      all: try (assert (0 < a * b) by nia).
      all: rewrite ?(wrap64_small (_ * 1)) by nia.
      all: rewrite ?(wrap64_small (_ * (_ * 1))) by nia.
      all: rewrite ?(wrap64_small (_ * (_ * (_ * 1)))) by nia.
      all: rewrite ?wrap64_small by nia.
      all: unfold in_int64; change (2 ^ 63) with 9223372036854775808.
      all: repeat split; first [apply IZR_le | apply IZR_lt | idtac]; nia.
    + eexists _, _. split; [reflexivity|]. cbn [to_R sum_fits].
      unfold np_prod. rewrite wrap64_small by lia.
      assert (Hone : (1 <= sqrt (IZR (product shape)))%R).
      { rewrite <- sqrt_1. apply sqrt_le_1_alt. apply IZR_le. lia. }
      assert (Hsq : (sqrt (IZR (product shape)) * sqrt (IZR (product shape))
                     = IZR (product shape))%R).
      { apply sqrt_sqrt. apply IZR_le. lia. }
      assert (Hup : (IZR (product shape) < 2147483648)%R) by (apply IZR_lt; lia).
      repeat split; try exact Hone; nra.
Qed.

Lemma compute_fans_valid_witness :
  exists fan_in fan_out,
    _compute_fans [3; 3; 512; 512] "channels_last" = Ok (fan_in, fan_out)
    /\ (1 <= to_R fan_in < 4611686018427387904)%R
    /\ (1 <= to_R fan_out < 4611686018427387904)%R
    /\ sum_fits fan_in fan_out.
Proof.
  apply (compute_fans_valid [3; 3; 512; 512] "channels_last").
  - split; [repeat constructor|]. apply Z.ltb_lt. vm_compute. reflexivity.
  - right. reflexivity.
Defined.

(** ** [VarianceScaling] *)

(** X7. An instance that [VarianceScaling.__init__] returns has a positive
    scale and a mode and a distribution among the accepted lower-case
    names; it keeps the scale and the seed it was given. *)
Theorem VarianceScaling_init_invariant
    (scale : R) (mode distribution : string) (seed : option Z) (self : VarianceScaling.t) :
  VarianceScaling.__init__ scale mode distribution seed = Ok self ->
  VarianceScaling_valid self
  /\ VarianceScaling.scale self = scale
  /\ VarianceScaling.seed self = seed
  /\ VarianceScaling.mode self = Py.lower mode
  /\ VarianceScaling.distribution self = Py.lower distribution.
Proof.
  intros Hinit.
  destruct (VarianceScaling_init_cases scale mode distribution seed)
    as [[_ Hbad] | [(Hs & Hm & Hd) Hok]]; [congruence|].
  rewrite Hok in Hinit. injection Hinit as <-.
  unfold VarianceScaling_valid. cbn. repeat split; auto. lra.
Qed.

Lemma VarianceScaling_init_invariant_witness :
  VarianceScaling_valid (VarianceScaling.mk 3 "fan_out" "uniform" None).
Proof.
  apply (VarianceScaling_init_invariant 3 "Fan_OUT" "Uniform" None).
  apply VarianceScaling_init_ok; [lra | vm_compute; set_solver | vm_compute; set_solver].
Defined.

(** X8. The constructor does not distinguish two spellings of a mode or of
    a distribution that differ only in case. *)
Theorem VarianceScaling_init_case_insensitive
    (scale : R) (mode mode' distribution distribution' : string) (seed : option Z) :
  eq_ignoring_case mode mode' ->
  eq_ignoring_case distribution distribution' ->
  VarianceScaling.__init__ scale mode distribution seed
  = VarianceScaling.__init__ scale mode' distribution' seed.
Proof.
  unfold eq_ignoring_case, VarianceScaling.__init__. intros -> ->. reflexivity.
Qed.

Lemma VarianceScaling_init_case_insensitive_witness :
  VarianceScaling.__init__ 1 "FAN_AVG" "Normal" None
  = VarianceScaling.__init__ 1 "fan_avg" "NORMAL" None.
Proof.
  apply VarianceScaling_init_case_insensitive; reflexivity.
Defined.

Lemma effective_scale_bounds (scale n : R) :
  (0 < scale)%R -> (0 < scale / Rmax 1 n <= scale)%R.
Proof.
  intros Hs. pose proof (Rmax_l 1 n) as Hmax.
  split.
  - apply Rdiv_lt_0_compat; lra.
  - apply (Rmult_le_reg_r (Rmax 1 n)); [lra|].
    unfold Rdiv. rewrite Rmult_assoc, Rinv_l by lra. nra.
Qed.

(** X9. Whatever the shape, a constructed [VarianceScaling] never samples
    wider than its scale allows: the standard deviation of the normal law
    lies in [(0, sqrt(scale)]] and the limit of the uniform law in
    [(0, sqrt(3 * scale)]]. *)
Theorem VarianceScaling_spread_bounded `{Backend}
    (scale : R) (mode distribution : string) (seed : option Z)
    (self : VarianceScaling.t) (shape : list Z) (dtype : option string) (w : world) :
  VarianceScaling.__init__ scale mode distribution seed = Ok self ->
  exists p : R,
    (0 < p)%R
    /\ (VarianceScaling.distribution self = "normal" ->
        (p <= sqrt scale)%R
        /\ VarianceScaling.__call__ self shape dtype w
           = draw (K_truncated_normal shape 0 p dtype seed) w)
    /\ (VarianceScaling.distribution self = "uniform" ->
        (p <= sqrt (3 * scale))%R
        /\ VarianceScaling.__call__ self shape dtype w
           = draw (K_random_uniform shape (- p) p dtype seed) w).
Proof.
  intros Hinit.
  destruct (VarianceScaling_init_cases scale mode distribution seed)
    as [[_ Hbad] | [(Hs & Hm & Hd) Hok]]; [congruence|].
  rewrite Hok in Hinit. injection Hinit as <-.
  destruct (VarianceScaling_call_form
              (VarianceScaling.mk scale (Py.lower mode) (Py.lower distribution) seed)
              shape dtype w) as (fi & fo & n & _ & _ & Hcall).
  cbn [VarianceScaling.mode VarianceScaling.distribution VarianceScaling.scale
       VarianceScaling.seed] in *.
  assert (Hpos : (0 < scale)%R) by lra.
  destruct (effective_scale_bounds scale n Hpos) as [Hlo Hhi].
  unfold VarianceScaling.distributions in Hd. set_unfold in Hd.
  destruct Hd as [Hd | Hd]; rewrite Hd in *.
  - exists (sqrt (scale / Rmax 1 n)). split; [apply sqrt_lt_R0; exact Hlo|].
    split; [|discriminate]. intros _. split; [apply sqrt_le_1_alt; exact Hhi|].
    rewrite Hcall. rewrite decide_True by reflexivity. reflexivity.
  - exists (sqrt (3 * (scale / Rmax 1 n))). split; [apply sqrt_lt_R0; lra|].
    split; [discriminate|]. intros _. split; [apply sqrt_le_1_alt; lra|].
    rewrite Hcall. rewrite decide_False by discriminate. reflexivity.
Qed.

Lemma VarianceScaling_spread_bounded_witness :
  exists p : R,
    (0 < p <= sqrt 2)%R
    /\ VarianceScaling.__call__ (H0 := Reference.backend)
         (VarianceScaling.mk 2 "fan_in" "normal" None) [3; 3; 16; 32] None
         Reference.start
       = draw (K_truncated_normal (Backend := Reference.backend)
                 [3; 3; 16; 32] 0 p None None) Reference.start.
Proof.
  destruct (VarianceScaling_spread_bounded (H0 := Reference.backend)
              2 "fan_in" "normal" None (VarianceScaling.mk 2 "fan_in" "normal" None)
              [3; 3; 16; 32] None Reference.start) as (p & Hp & Hn & _).
  - apply preset_init; [lra | |];
      unfold VarianceScaling.modes, VarianceScaling.distributions; set_solver.
  - exists p. destruct (Hn eq_refl) as [Hle Hcall]. repeat split; assumption.
Defined.

(** X10. The guard [max(1., fan)]: when the fan the mode selects is at
    most 1 (a shape with an empty dimension, a single weight) the scale is
    not divided at all. *)
Theorem VarianceScaling_small_fan `{Backend}
    (self : VarianceScaling.t) (shape : list Z) (dtype : option string) (w : world)
    (fan_in fan_out : number) :
  _compute_fans shape default_data_format = Ok (fan_in, fan_out) ->
  VarianceScaling.mode self = "fan_in" ->
  (to_R fan_in <= 1)%R ->
  VarianceScaling.__call__ self shape dtype w
  = (if decide (VarianceScaling.distribution self = "normal")
     then draw (K_truncated_normal shape 0 (sqrt (VarianceScaling.scale self)) dtype
                  (VarianceScaling.seed self))
     else draw (K_random_uniform shape
                  (- sqrt (3 * VarianceScaling.scale self))
                  (sqrt (3 * VarianceScaling.scale self)) dtype
                  (VarianceScaling.seed self))) w.
Proof.
  intros Hfans Hmode Hfan.
  destruct (VarianceScaling_call_form self shape dtype w)
    as (fi & fo & n & Hfans' & Hn & Hcall).
  rewrite Hfans in Hfans'. injection Hfans' as <- <-.
  rewrite Hmode in Hn. rewrite decide_True in Hn by reflexivity. subst n.
  rewrite Hcall, Rmax_left by exact Hfan.
  replace (VarianceScaling.scale self / 1)%R with (VarianceScaling.scale self) by field.
  reflexivity.
Qed.

Lemma VarianceScaling_small_fan_witness :
  VarianceScaling.__call__ (H0 := Reference.backend)
    (VarianceScaling.mk 2 "fan_in" "normal" None) [0; 5] None Reference.start
  = draw (K_truncated_normal (Backend := Reference.backend)
            [0; 5] 0 (sqrt 2) None None) Reference.start.
Proof.
  apply (VarianceScaling_small_fan (H0 := Reference.backend)
           (VarianceScaling.mk 2 "fan_in" "normal" None) [0; 5] None Reference.start
           (PyInt 0) (PyInt 5)).
  - reflexivity.
  - reflexivity.
  - cbn. lra.
Defined.

(** X11. The formulas of the docstrings of the other presets, whenever
    the fans the calculator returns are at least 1 and their sum is not
    cut to 64 bits: [lecun_uniform] draws uniformly within
    [sqrt(3 / fan_in)], [glorot_normal] with standard deviation
    [sqrt(2 / (fan_in + fan_out))], [glorot_uniform] within
    [sqrt(6 / (fan_in + fan_out))] and [he_normal] with standard deviation
    [sqrt(2 / fan_in)]. *)
Theorem presets_docstring_formulas `{Backend}
    (seed : option Z) (shape : list Z) (dtype : option string) (w : world)
    (fan_in fan_out : number) :
  _compute_fans shape default_data_format = Ok (fan_in, fan_out) ->
  (1 <= to_R fan_in)%R -> (1 <= to_R fan_out)%R ->
  sum_fits fan_in fan_out ->
  (forall self, lecun_uniform seed = Ok self ->
     let limit := sqrt (3 / to_R fan_in) in
     VarianceScaling.__call__ self shape dtype w
     = draw (K_random_uniform shape (- limit) limit dtype seed) w)
  /\ (forall self, glorot_normal seed = Ok self ->
        let stddev := sqrt (2 / (to_R fan_in + to_R fan_out)) in
        VarianceScaling.__call__ self shape dtype w
        = draw (K_truncated_normal shape 0 stddev dtype seed) w)
  /\ (forall self, glorot_uniform seed = Ok self ->
        let limit := sqrt (6 / (to_R fan_in + to_R fan_out)) in
        VarianceScaling.__call__ self shape dtype w
        = draw (K_random_uniform shape (- limit) limit dtype seed) w)
  /\ (forall self, he_normal seed = Ok self ->
        let stddev := sqrt (2 / to_R fan_in) in
        VarianceScaling.__call__ self shape dtype w
        = draw (K_truncated_normal shape 0 stddev dtype seed) w).
Proof.
  intros Hfans Hin Hout Hfit.
  assert (Hpre : forall scale mode distribution self,
             (0 < scale)%R -> mode ∈ VarianceScaling.modes ->
             distribution ∈ VarianceScaling.distributions ->
             VarianceScaling.__init__ scale mode distribution seed = Ok self ->
             self = VarianceScaling.mk scale mode distribution seed).
  { intros scale mode distribution self Hs Hm Hd Hinit.
    rewrite preset_init in Hinit by assumption. congruence. }
  assert (Hcall : forall self,
             exists n,
               n = (if decide (VarianceScaling.mode self = "fan_in") then to_R fan_in
                    else if decide (VarianceScaling.mode self = "fan_out") then to_R fan_out
                    else (to_R fan_in + to_R fan_out) / 2)%R
               /\ VarianceScaling.__call__ self shape dtype w
                  = (if decide (VarianceScaling.distribution self = "normal")
                     then draw (K_truncated_normal shape 0
                                  (sqrt (VarianceScaling.scale self / Rmax 1 n)) dtype
                                  (VarianceScaling.seed self))
                     else draw (K_random_uniform shape
                                  (- sqrt (3 * (VarianceScaling.scale self / Rmax 1 n)))
                                  (sqrt (3 * (VarianceScaling.scale self / Rmax 1 n))) dtype
                                  (VarianceScaling.seed self))) w).
  { intros self.
    destruct (VarianceScaling_call_form self shape dtype w)
      as (fi & fo & n & Hfans' & Hn & Hc).
    rewrite Hfans in Hfans'. injection Hfans' as <- <-.
    rewrite (to_R_number_add _ _ Hfit) in Hn. eauto. }
  assert (Hm_in : "fan_in" ∈ VarianceScaling.modes)
    by (unfold VarianceScaling.modes; set_solver).
  assert (Hm_avg : "fan_avg" ∈ VarianceScaling.modes)
    by (unfold VarianceScaling.modes; set_solver).
  assert (Hd_n : "normal" ∈ VarianceScaling.distributions)
    by (unfold VarianceScaling.distributions; set_solver).
  assert (Hd_u : "uniform" ∈ VarianceScaling.distributions)
    by (unfold VarianceScaling.distributions; set_solver).
  split; [|split; [|split]]; intros self Hself;
    apply Hpre in Hself; try assumption; try lra; subst self;
    match goal with |- let _ := _ in _ = _ => intros p; subst p end;
    match goal with
    | |- VarianceScaling.__call__ ?s _ _ _ = _ => destruct (Hcall s) as (n & Hn & ->)
    end;
    cbn [VarianceScaling.mode VarianceScaling.distribution VarianceScaling.scale
         VarianceScaling.seed] in *.
  - rewrite decide_True in Hn by reflexivity.
    rewrite decide_False by discriminate. subst n. rewrite Rmax_right by exact Hin.
    replace (3 * (1 / to_R fan_in))%R with (3 / to_R fan_in)%R by (field; lra).
    reflexivity.
  - rewrite decide_False, decide_False in Hn by discriminate.
    rewrite decide_True by reflexivity. subst n. rewrite Rmax_right by lra.
    replace (1 / ((to_R fan_in + to_R fan_out) / 2))%R
      with (2 / (to_R fan_in + to_R fan_out))%R by (field; lra).
    reflexivity.
  - rewrite decide_False, decide_False in Hn by discriminate.
    rewrite decide_False by discriminate. subst n. rewrite Rmax_right by lra.
    replace (3 * (1 / ((to_R fan_in + to_R fan_out) / 2)))%R
      with (6 / (to_R fan_in + to_R fan_out))%R by (field; lra).
    reflexivity.
  - rewrite decide_True in Hn by reflexivity.
    rewrite decide_True by reflexivity. subst n. rewrite Rmax_right by exact Hin.
    reflexivity.
Qed.

Lemma presets_docstring_formulas_witness :
  VarianceScaling.__call__ (H0 := Reference.backend)
    (VarianceScaling.mk 1 "fan_avg" "uniform" (Some 7)) [24; 10] None Reference.start
  = draw (K_random_uniform (Backend := Reference.backend) [24; 10]
            (- sqrt (6 / (24 + 10))) (sqrt (6 / (24 + 10))) None (Some 7))
      Reference.start.
Proof.
  destruct (presets_docstring_formulas (H0 := Reference.backend)
              (Some 7) [24; 10] None Reference.start (PyInt 24) (PyInt 10))
    as (_ & _ & Hglorot & _).
  - reflexivity.
  - cbn [to_R]. lra.
  - cbn [to_R]. lra.
  - exact I.
  - apply Hglorot.
    apply preset_init; [lra | |];
      unfold VarianceScaling.modes, VarianceScaling.distributions; set_solver.
Defined.

(** ** Configuration records *)

Lemma bind_keywords_unknown (names : list string) (c : config) (k : string) :
  is_Some (c !! k) -> k ∉ names -> bind_keywords names c = Err TypeError.
Proof.
  intros Hk Hnot. unfold bind_keywords. rewrite decide_False; [reflexivity|].
  intros Hsub. apply Hnot. apply elem_of_dom in Hk.
  apply Hsub in Hk. set_solver.
Qed.

(** X12. [from_config] of any class refuses a record with a key that is
    not a parameter of the class's constructor: the call raises
    [TypeError], whatever the other entries. *)
Theorem from_config_unknown_keyword (cls : class) (c : config) (k : string) :
  is_Some (c !! k) -> k ∉ params cls -> from_config cls c = Err TypeError.
Proof.
  intros Hk Hnot.
  destruct cls; cbn [from_config params] in *;
    unfold Zeros.from_config, Ones.from_config, Constant.from_config,
      RandomNormal.from_config, RandomUniform.from_config, TruncatedNormal.from_config,
      VarianceScaling.from_config, Orthogonal.from_config,
      ConvolutionAware.from_config, Identity.from_config;
    rewrite (bind_keywords_unknown _ c k Hk Hnot); reflexivity.
Qed.

Lemma from_config_unknown_keyword_witness :
  from_config COrthogonal {[ "gain" := PFloat 2; "scale" := PFloat 1 ]} = Err TypeError.
Proof.
  apply (from_config_unknown_keyword COrthogonal _ "scale").
  - exists (PFloat 1). simplify_map_eq. reflexivity.
  - cbn. set_solver.
Defined.

(** X13. Every parameter is optional: [from_config] of any class accepts
    the empty record and builds the instance of the defaults of the
    constructor, which for [VarianceScaling] pass its validation. *)
Theorem from_config_defaults (cls : class) :
  from_config cls ∅ = Ok (default_instance cls)
  /\ class_of (default_instance cls) = cls
  /\ constructed (default_instance cls).
Proof.
  assert (Hbind : forall names, bind_keywords names ∅ = Ok ()).
  { intros names. apply bind_keywords_ok. rewrite dom_empty_L. set_solver. }
  destruct cls; (split; [|split; [reflexivity|]]);
    cbn [from_config default_instance constructed];
    unfold Zeros.from_config, Ones.from_config, Constant.from_config,
      RandomNormal.from_config, RandomUniform.from_config, TruncatedNormal.from_config,
      VarianceScaling.from_config, Orthogonal.from_config,
      ConvolutionAware.from_config, Identity.from_config,
      kw_float, kw_str, kw_seed;
    rewrite ?Hbind, ?lookup_empty; cbn [mbind result_bind fmap result_fmap];
    try reflexivity; try exact I.
  - rewrite preset_init; [reflexivity | lra | |];
      unfold VarianceScaling.modes, VarianceScaling.distributions; set_solver.
  - exists 1%R, "fan_in", "normal", None.
    apply preset_init; [lra | |];
      unfold VarianceScaling.modes, VarianceScaling.distributions; set_solver.
  - exists 0.05%R, None. reflexivity.
Qed.

(** X14. The keys of the record [get_config] returns are exactly the
    parameters of the constructor of the instance's class. *)
Theorem get_config_keys (i : initializer) :
  dom (get_config i) = list_to_set (params (class_of i)).
Proof.
  destruct i; cbn [get_config class_of params];
    unfold Zeros.get_config, Ones.get_config, Initializer.get_config,
      Constant.get_config, RandomNormal.get_config, RandomUniform.get_config,
      TruncatedNormal.get_config, VarianceScaling.get_config, Orthogonal.get_config,
      ConvolutionAware.get_config, Identity.get_config;
    rewrite ?dom_insert_L, ?dom_singleton_L, ?dom_empty_L; set_solver.
Qed.

(** X15. [VarianceScaling.from_config] validates like the constructor: an
    instance it returns has a positive scale and an accepted mode and
    distribution, so a record with a bad value is never turned into an
    instance. *)
Theorem VarianceScaling_from_config_valid (c : config) (self : VarianceScaling.t) :
  VarianceScaling.from_config c = Ok self -> VarianceScaling_valid self.
Proof.
  unfold VarianceScaling.from_config. intros Hfrom.
  destruct (bind_keywords _ c); [|discriminate]. cbn [mbind result_bind] in Hfrom.
  destruct (kw_float c "scale" 1) as [scale|]; [|discriminate].
  cbn [mbind result_bind] in Hfrom.
  destruct (kw_str c "mode" "fan_in") as [mode|]; [|discriminate].
  cbn [mbind result_bind] in Hfrom.
  destruct (kw_str c "distribution" "normal") as [distribution|]; [|discriminate].
  cbn [mbind result_bind] in Hfrom.
  destruct (kw_seed c "seed") as [seed|]; [|discriminate].
  cbn [mbind result_bind] in Hfrom.
  destruct (VarianceScaling_init_cases scale mode distribution seed)
    as [[_ Hbad] | [(Hs & Hm & Hd) Hok]]; [congruence|].
  rewrite Hok in Hfrom. injection Hfrom as <-.
  unfold VarianceScaling_valid. cbn. repeat split; auto. lra.
Qed.

Lemma VarianceScaling_from_config_valid_witness :
  VarianceScaling_valid (VarianceScaling.mk 2 "fan_out" "normal" None).
Proof.
  apply (VarianceScaling_from_config_valid
           {[ "scale" := PInt 2; "mode" := PStr "FAN_OUT" ]}).
  unfold VarianceScaling.from_config.
  rewrite bind_keywords_ok
    by (rewrite ?dom_insert_L, ?dom_singleton_L; set_solver).
  unfold kw_float, kw_str, kw_seed. simplify_map_eq.
  cbn [mbind result_bind].
  apply VarianceScaling_init_ok; [lra | vm_compute; set_solver | vm_compute; set_solver].
Defined.

(** ** [Orthogonal] *)

Lemma fold_left_mul (l : list Z) (x : Z) :
  fold_left (fun num_rows dim => num_rows * dim) l x = x * product l.
Proof.
  revert x. induction l as [|d l IH]; intros x; cbn [fold_left].
  - cbn. lia.
  - rewrite IH. change (product (d :: l)) with (d * product l). lia.
Qed.

Lemma product_app (l1 l2 : list Z) : product (l1 ++ l2) = product l1 * product l2.
Proof.
  induction l1 as [|d l1 IH].
  - cbn [app]. change (product []) with 1. lia.
  - change (product ((d :: l1) ++ l2)) with (d * product (l1 ++ l2)).
    change (product (d :: l1)) with (d * product l1). rewrite IH. lia.
Qed.

Lemma slice_to_minus_1 {A : Type} (init : list A) (x : A) :
  Py.slice_to (init ++ [x]) (-1) = init.
Proof.
  unfold Py.slice_to, Py.clamp. rewrite length_app. cbn [length].
  replace (-1 <? 0) with true by reflexivity.
  replace (Z.to_nat _) with (length init) by lia.
  rewrite firstn_app, Nat.sub_diag, firstn_all. cbn. apply app_nil_r.
Qed.

Lemma getitem_minus_1 (init : list Z) (x : Z) : Py.getitem (init ++ [x]) (-1) = Ok x.
Proof.
  unfold Py.getitem. rewrite length_app. cbn [length].
  replace (-1 <? 0) with true by reflexivity.
  destruct (0 <=? -1 + Z.of_nat (length init + 1)) eqn:E1; [|apply Z.leb_gt in E1; lia].
  destruct (-1 + Z.of_nat (length init + 1) <? Z.of_nat (length init + 1)) eqn:E2;
    [|apply Z.ltb_ge in E2; lia].
  cbn [andb].
  replace (Z.to_nat (-1 + Z.of_nat (length init + 1))) with (length init) by lia.
  rewrite nth_error_app2 by lia. rewrite Nat.sub_diag. reflexivity.
Qed.

(** X16. Flattening keeps the number of entries: for a shape with a last
    dimension, [num_rows * num_cols] is the product of all the
    dimensions. *)
Theorem Orthogonal_flat_shape_size (shape : list Z) (cols : Z) :
  Orthogonal.num_cols shape = Ok cols ->
  Orthogonal.num_rows shape * cols = product shape.
Proof.
  destruct shape as [|d t]; [discriminate|].
  assert (Hne : d :: t <> []) by discriminate.
  destruct (exists_last Hne) as (init & x & ->).
  unfold Orthogonal.num_cols, Orthogonal.num_rows.
  rewrite getitem_minus_1, slice_to_minus_1. intros [= <-].
  rewrite fold_left_mul, product_app.
  change (product [x]) with (x * 1). lia.
Qed.

Lemma Orthogonal_flat_shape_size_witness :
  Orthogonal.num_rows [3; 3; 16; 32] * 32 = product [3; 3; 16; 32].
Proof.
  apply (Orthogonal_flat_shape_size [3; 3; 16; 32] 32). reflexivity.
Defined.

Lemma np_scale_scale_1 (g : R) (a : ndarray) : np_scale g (np_scale 1 a) = np_scale g a.
Proof.
  unfold np_scale. cbn [nd_shape nd_data]. f_equal.
  rewrite map_map. apply map_ext. intros x. lra.
Qed.

(** X17. The gain only scales the result: from the same world,
    [Orthogonal(gain=g, seed)] returns [g] times the array that
    [Orthogonal(gain=1, seed)] returns, or fails as it does, and leaves
    the same world. *)
Theorem Orthogonal_gain_scales `{NumPy}
    (g : R) (seed : option Z) (shape : list Z) (dtype : option string) (w : world) :
  Orthogonal.__call__ (Orthogonal.mk g seed) shape dtype w
  = (np_scale g <$> Orthogonal.__call__ (Orthogonal.mk 1 seed) shape dtype) w.
Proof.
  unfold fmap, M_fmap. destruct shape as [|d t].
  - rewrite !Orthogonal_call_empty. reflexivity.
  - destruct (num_cols_cons d t) as [cols Hcols].
    pose proof (Orthogonal_call_unfold (Orthogonal.mk g seed) _ dtype w cols Hcols) as Hg.
    pose proof (Orthogonal_call_unfold (Orthogonal.mk 1 seed) _ dtype w cols Hcols) as H1.
    cbv zeta in Hg, H1. cbn [Orthogonal.seed Orthogonal.gain] in Hg, H1.
    destruct (np_linalg_svd _ false) as [[u ?] v]. rewrite Hg, H1.
    destruct (Py.getitem (d :: t) 0) as [s0|]; [|reflexivity].
    destruct (Py.getitem (d :: t) 1) as [s1|]; [|reflexivity].
    cbn. rewrite np_scale_scale_1. reflexivity.
Qed.

(** X18. A call that fails has still acted on the generator: on a shape
    [(d,)] the call raises [IndexError] after the generator has been
    re-seeded (when the instance has a seed) and advanced by the draw of a
    [1]-by-[d] matrix; only on the empty shape, where [shape[-1]] fails
    first, is the world left as it was. *)
Theorem Orthogonal_failed_call_effect `{NumPy}
    (self : Orthogonal.t) (dtype : option string) (w : world) :
  Orthogonal.__call__ self [] dtype w = (Err IndexError, w)
  /\ forall d : Z,
       Orthogonal.__call__ self [d] dtype w
       = (Err IndexError,
          {| gen := snd (np_random_normal 0 1 [1; d]
                           (draw_from (Orthogonal.seed self) (gen w)));
             stdout := stdout w |}).
Proof.
  split; [reflexivity|]. intros d.
  pose proof (Orthogonal_call_unfold self [d] dtype w d eq_refl) as Hu.
  cbv zeta in Hu. destruct (np_linalg_svd _ false) as [[u ?] v].
  rewrite Hu. reflexivity.
Qed.

(** ** Reproducibility *)

Lemma Reference_seeded : @BackendSeeded Reference.numpy Reference.backend.
Proof. split; intros shape a b dtype s g1 g2; reflexivity. Qed.

(** X19. With a backend whose seeded samplers are reproducible, calling a
    seeded initializer of any class but [ConvolutionAware] twice in a row
    on the same shape returns the same tensor (or the same failure) both
    times. *)
Theorem seeded_call_repeats `{BackendSeeded}
    (i : initializer) (shape : list Z) (s : Z) (w : world) :
  seed_of i = Some s ->
  class_of i <> CConvolutionAware ->
  fst (call i shape (snd (call i shape w))) = fst (call i shape w).
Proof.
  intros Hseed Hcls.
  apply (seeded_calls_deterministic i shape s Hseed Hcls).
Qed.

Lemma seeded_call_repeats_witness :
  let i := IOrthogonal (Orthogonal.mk 1 (Some 7)) in
  fst (call (H0 := Reference.backend) i [2; 3]
         (snd (call (H0 := Reference.backend) i [2; 3] Reference.start)))
  = fst (call (H0 := Reference.backend) i [2; 3] Reference.start).
Proof.
  intros i.
  apply (seeded_call_repeats (H1 := Reference_seeded) i [2; 3] 7 Reference.start).
  - reflexivity.
  - discriminate.
Defined.

(** ** [ConvolutionAware] *)

Section ConvolutionAwareEdges.
Context `{Backend}.

(** X20. On a dense shape [(0, n)] the variance [2 / fan_in] divides by the
    Python integer zero: [ConvolutionAware] raises [ZeroDivisionError]
    before anything is drawn or printed, and leaves the world as it
    was. *)
Theorem ConvolutionAware_empty_dense
    (self : ConvolutionAware.t) (n : Z) (w : world) :
  ConvolutionAware.__call__ self [0; n] w = (Err ZeroDivisionError, w).
Proof. reflexivity. Qed.

(** X21. On a shape of rank 4, with a known layout, the call prints one
    line, the four dimensions, and nothing else, whether the construction
    of the filters then succeeds or not. *)
Theorem ConvolutionAware_rank4_prints
    (self : ConvolutionAware.t) (row column stack_size filters_size : Z) (w : world) :
  K_image_data_format = "channels_first" \/ K_image_data_format = "channels_last" ->
  stdout (snd (ConvolutionAware.__call__ self [row; column; stack_size; filters_size] w))
  = (stdout w ++ [[row; column; stack_size; filters_size]])%list.
Proof.
  intros Hfmt. unfold ConvolutionAware.__call__.
  assert (Hfans : exists fi fo,
             _compute_fans [row; column; stack_size; filters_size] K_image_data_format
             = Ok (NpInt fi, NpInt fo)).
  { destruct Hfmt as [-> | ->]; cbn; eauto. }
  destruct Hfans as (fi & fo & Hfans).
  unfold mbind at 1, M_bind, lift. rewrite Hfans. cbn [py_truediv].
  unfold mbind, M_bind. cbv beta iota. cbn [length].
  rewrite decide_False by lia. rewrite decide_True by lia.
  unfold print. cbv beta iota.
  rewrite (fourier_filters_silent self [2; 3; 1; 0] [row; column] np_fft_irfft2
             stack_size filters_size (2 / to_R (NpInt fi))).
  reflexivity.
Qed.
End ConvolutionAwareEdges.

Lemma ConvolutionAware_rank4_prints_witness :
  stdout (snd (ConvolutionAware.__call__ (H0 := Reference.backend)
                 (ConvolutionAware.__init__ 0.05 None) [3; 3; 2; 2] Reference.start))
  = [[3; 3; 2; 2]].
Proof.
  apply (ConvolutionAware_rank4_prints (H0 := Reference.backend)
           (ConvolutionAware.__init__ 0.05 None) 3 3 2 2 Reference.start).
  right. reflexivity.
Defined.

(** *** The basis of one filter *)

Section Basis.
Context `{Backend}.

(** A loop whose body always draws once: it returns as many results as it
    has rounds and leaves the generator that many draws further. *)
Lemma for_range_draws {A : Type} (P : A -> Prop) (n : nat) (body : M A) (step : rng -> rng) :
  (forall w : world,
      exists a, body w = (Ok a, {| gen := step (gen w); stdout := stdout w |}) /\ P a) ->
  forall w : world,
    exists l, for_range n body w
              = (Ok l, {| gen := Nat.iter n step (gen w); stdout := stdout w |})
              /\ length l = n /\ Forall P l.
Proof.
  intros Hbody. induction n as [|n IH]; intros w.
  - exists []. destruct w. cbn. auto.
  - destruct (Hbody w) as (a & Ha & HPa).
    destruct (IH {| gen := step (gen w); stdout := stdout w |}) as (l & Hl & Hlen & HP).
    exists (a :: l). cbn [for_range]. unfold mbind, M_bind at 1. rewrite Ha.
    unfold mbind, M_bind at 1. rewrite Hl. cbn [gen stdout length].
    rewrite Nat.iter_succ_r. cbn. auto.
Qed.

Lemma M_bind_ok {A B : Type} (m : M A) (k : A -> M B) (w w' : world) (a : A) :
  m w = (Ok a, w') -> (m ≫= k) w = k a w'.
Proof. intros Hm. unfold mbind, M_bind. rewrite Hm. reflexivity. Qed.

Lemma create_basis_round (self : ConvolutionAware.t) (size : Z) (w : world) :
  exists rows,
    (a ← draw (np_random_normal 0 1 [size; size]);
     let a := ConvolutionAware._symmetrize a in
     let '(u, _, v) := np_linalg_svd a true in
     mret (np_tolist (np_T u))) w
    = (Ok rows, {| gen := snd (np_random_normal 0 1 [size; size] (gen w));
                   stdout := stdout w |})
    /\ rows = np_tolist (np_T (fst (fst (np_linalg_svd
                (ConvolutionAware._symmetrize
                   (fst (np_random_normal 0 1 [size; size] (gen w)))) true)))).
Proof.
  unfold mbind, M_bind, draw.
  destruct (np_random_normal 0 1 [size; size] (gen w)) as [a g]. cbn [fst snd].
  destruct (np_linalg_svd (ConvolutionAware._symmetrize a) true) as [[u s] v].
  cbn. eauto.
Qed.

(** X22. What [_create_basis] takes from the generator: one draw of a
    [filters]-by-[1] matrix when [size] is 1, and otherwise
    [filters // size + 1] draws of a [size]-by-[size] matrix, one more
    than needed when [size] divides [filters]. *)
Theorem create_basis_draws (self : ConvolutionAware.t) (filters size : Z) (w : world) :
  (size = 1 ->
   gen (snd (ConvolutionAware._create_basis self filters size w))
   = snd (np_random_normal 0 (ConvolutionAware.eps_std self) [filters; 1] (gen w)))
  /\ (size <> 1 ->
      gen (snd (ConvolutionAware._create_basis self filters size w))
      = Nat.iter (Z.to_nat (filters / size + 1))
          (fun g => snd (np_random_normal 0 1 [size; size] g)) (gen w)).
Proof.
  unfold ConvolutionAware._create_basis. split; intros Hsize.
  - rewrite decide_True by exact Hsize. subst size. unfold draw.
    destruct (np_random_normal _ _ _ _). reflexivity.
  - rewrite decide_False by exact Hsize.
    destruct (for_range_draws (fun _ => True) (Z.to_nat (filters / size + 1))
                (a ← draw (np_random_normal 0 1 [size; size]);
                 let a := ConvolutionAware._symmetrize a in
                 let '(u, _, v) := np_linalg_svd a true in
                 mret (np_tolist (np_T u)))
                (fun g => snd (np_random_normal 0 1 [size; size] g))) with (w := w)
      as (l & Hl & _).
    + intros w0. destruct (create_basis_round self size w0) as (rows & Hr & _). eauto.
    + rewrite (M_bind_ok _ _ _ _ _ Hl). reflexivity.
Qed.

Lemma length_concat_const {A : Type} (k : nat) (ls : list (list A)) :
  Forall (fun l => length l = k) ls -> length (concat ls) = (length ls * k)%nat.
Proof.
  induction 1 as [|l ls Hl _ IH]; cbn [concat length]; [reflexivity|].
  rewrite length_app, Hl, IH. lia.
Qed.

Lemma slice_to_length {A : Type} (l : list A) (j : Z) :
  0 <= j <= Z.of_nat (length l) -> length (Py.slice_to l j) = Z.to_nat j.
Proof.
  intros Hj. unfold Py.slice_to, Py.clamp.
  destruct (j <? 0) eqn:E; [apply Z.ltb_lt in E; lia|].
  rewrite length_firstn. lia.
Qed.

(** X23. Drawing one batch too many is always enough: given that every
    factorisation contributes [size] rows, [_create_basis] with
    [size >= 2] returns an array built from exactly [filters] rows. *)
Theorem create_basis_row_count (self : ConvolutionAware.t) (filters size : Z) (w : world) :
  0 <= filters -> 2 <= size ->
  square_factor_rows size ->
  exists rows,
    fst (ConvolutionAware._create_basis self filters size w) = Ok (np_array rows K_floatx)
    /\ length rows = Z.to_nat filters.
Proof.
  intros Hf Hsize Hrows. unfold ConvolutionAware._create_basis.
  rewrite decide_False by lia.
  destruct (for_range_draws (fun rows => length rows = Z.to_nat size)
              (Z.to_nat (filters / size + 1))
              (a ← draw (np_random_normal 0 1 [size; size]);
               let a := ConvolutionAware._symmetrize a in
               let '(u, _, v) := np_linalg_svd a true in
               mret (np_tolist (np_T u)))
              (fun g => snd (np_random_normal 0 1 [size; size] g))) with (w := w)
    as (l & Hl & Hlen & HP).
  - intros w0. destruct (create_basis_round self size w0) as (rows & Hr & ->).
    eexists. split; [exact Hr|]. apply Hrows.
  - rewrite (M_bind_ok _ _ _ _ _ Hl). cbn [fst mret M_ret].
    eexists. split; [reflexivity|].
    apply slice_to_length. rewrite (length_concat_const _ _ HP), Hlen.
    split; [exact Hf|].
    assert (Hdiv : filters < (filters / size + 1) * size).
    { pose proof (Z.div_mod filters size ltac:(lia)) as Hdm.
      pose proof (Z.mod_pos_bound filters size ltac:(lia)) as Hmod. nia. }
    assert (0 <= filters / size) by (apply Z.div_pos; lia).
    nia.
Qed.
End Basis.

Lemma Numeric_square_factor_rows : square_factor_rows (H := Numeric.numpy) 2.
Proof. intros g. reflexivity. Qed.

Lemma create_basis_draws_witness :
  gen (snd (ConvolutionAware._create_basis (H0 := Reference.backend)
              (ConvolutionAware.__init__ 0.05 None) 4 2 Reference.start))
  = (0, 12).
Proof.
  rewrite (proj2 (create_basis_draws (H0 := Reference.backend)
                    (ConvolutionAware.__init__ 0.05 None) 4 2 Reference.start))
    by discriminate.
  reflexivity.
Defined.

Lemma create_basis_row_count_witness :
  exists rows,
    fst (ConvolutionAware._create_basis (H0 := Numeric.backend)
           (ConvolutionAware.__init__ 0.05 None) 3 2 Numeric.start)
    = Ok (np_array (NumPy := Numeric.numpy) rows "float32")
    /\ length rows = 3%nat.
Proof.
  apply (create_basis_row_count (H0 := Numeric.backend)
           (ConvolutionAware.__init__ 0.05 None) 3 2 Numeric.start).
  - lia.
  - lia.
  - exact Numeric_square_factor_rows.
Defined.

(** *** Rescaling the filters *)

Lemma Rsum_scale (p : R) (l : list R) : Rsum (map (Rmult p) l) = (p * Rsum l)%R.
Proof.
  induction l as [|x l IH]; cbn [map Rsum fold_right].
  - lra.
  - fold (Rsum (map (Rmult p) l)). fold (Rsum l). rewrite IH. lra.
Qed.

Lemma mean_scale (p : R) (l : list R) : mean (map (Rmult p) l) = (p * mean l)%R.
Proof.
  unfold mean. rewrite Rsum_scale, length_map. unfold Rdiv. lra.
Qed.

Lemma variance_scale (p : R) (l : list R) :
  variance (map (Rmult p) l) = (p * p * variance l)%R.
Proof.
  unfold variance.
  assert (Hmap : map (fun x => ((x - mean (map (Rmult p) l))
                                * (x - mean (map (Rmult p) l)))%R) (map (Rmult p) l)
                 = map (Rmult (p * p))
                     (map (fun x => ((x - mean l) * (x - mean l))%R) l)).
  { rewrite mean_scale, !List.map_map. apply map_ext. intros x. lra. }
  rewrite Hmap, mean_scale. reflexivity.
Qed.

(** X24. [_scale_filters] reaches its target: when [np.var] is the
    variance of the entries and the filters are not all equal, the array
    it returns has exactly the variance asked for. *)
Theorem scale_filters_variance `{NumPy} (filters : ndarray) (target : R) :
  (forall a : ndarray, np_var a = variance (nd_data a)) ->
  (0 < np_var filters)%R ->
  (0 <= target)%R ->
  np_var (ConvolutionAware._scale_filters filters target) = target.
Proof.
  intros Hvar Hpos Htarget. unfold ConvolutionAware._scale_filters.
  rewrite (Hvar (np_scale _ _)). unfold np_scale. cbn [nd_data].
  rewrite variance_scale, <- Hvar.
  rewrite sqrt_sqrt.
  - field. lra.
  - apply Rmult_le_pos; [exact Htarget|].
    apply Rlt_le, Rinv_0_lt_compat. exact Hpos.
Qed.

Lemma scale_filters_variance_witness :
  np_var (NumPy := Numeric.numpy)
    (ConvolutionAware._scale_filters (H := Numeric.numpy)
       {| nd_shape := [2]; nd_data := [0%R; 2%R] |} 8)
  = 8%R.
Proof.
  apply (scale_filters_variance (H := Numeric.numpy)).
  - intros a. reflexivity.
  - cbn. unfold variance, mean. cbn. lra.
  - lra.
Defined.

(** ** Records and instances *)

Lemma from_config_get_config (i : initializer) :
  constructed i -> from_config (class_of i) (get_config i) = Ok i.
Proof.
  intros Hc.
  destruct i as [self|self|self|self|self|self|self|self|self|self];
    cbn [class_of from_config get_config constructed] in *.
  - rewrite Zeros_round_trip. reflexivity.
  - rewrite Ones_round_trip. reflexivity.
  - rewrite Constant_round_trip. reflexivity.
  - rewrite RandomNormal_round_trip. reflexivity.
  - rewrite RandomUniform_round_trip. reflexivity.
  - rewrite TruncatedNormal_round_trip. reflexivity.
  - destruct Hc as (scale & mode & distribution & seed & Hinit).
    rewrite (VarianceScaling_round_trip _ _ _ _ _ Hinit). reflexivity.
  - rewrite Orthogonal_round_trip. reflexivity.
  - destruct Hc as (eps_std & seed & ->).
    rewrite ConvolutionAware_round_trip. reflexivity.
  - rewrite Identity_round_trip. reflexivity.
Qed.

(** X25. The record determines the instance: two constructed instances of
    one class with the same [get_config] are the same instance, so nothing
    an initializer holds escapes its record. *)
Theorem get_config_injective (i i' : initializer) :
  constructed i -> constructed i' ->
  class_of i = class_of i' ->
  get_config i = get_config i' ->
  i = i'.
Proof.
  intros Hc Hc' Hcls Hcfg.
  pose proof (from_config_get_config i Hc) as Hi.
  pose proof (from_config_get_config i' Hc') as Hi'.
  rewrite Hcls, Hcfg in Hi. congruence.
Qed.

Lemma get_config_injective_witness :
  IConvolutionAware (ConvolutionAware.__init__ 0.05 (Some 3))
  = IConvolutionAware (ConvolutionAware.mk 0.05 (Some 3) (Orthogonal.mk 1 None)).
Proof.
  apply get_config_injective.
  - exists 0.05%R, (Some 3). reflexivity.
  - exists 0.05%R, (Some 3). reflexivity.
  - reflexivity.
  - reflexivity.
Defined.
